(** * Smartdairy: the aggregation and reporting logic of [app.py]

    A shallow embedding of the parts of the Flask application that compute
    derived values: the dashboard (monthly cost rollup, salary due list,
    low-milk alerts, milk totals), the salary report, the per-animal milk
    summary, and user registration.

    Conventions of the embedding:
    - database tables are lists of rows in row-id order; a query is a
      filter, a projection or an aggregate over such a list;
    - SQL [Integer] columns and Python [int]s are [Z]; a nullable column is
      an [option];
    - SQL [Float] columns and Python [float]s are binary64 values
      ([PrimFloat.float]); the Python [int] 0 that [x or 0] produces is the
      float zero it is converted to by the next arithmetic operation; the
      aggregates [sum] and [avg] of the database engine add the values of a
      group one after the other, in row order;
    - [date.today()] is an argument [today] of every handler that reads the
      clock (the dashboard reads it once per block; one value stands for
      all its reads);
    - a date is a triple of integers; the bounds [MINYEAR] and [MAXYEAR] of
      the [datetime] library are not part of the embedding. *)

From Stdlib Require Import ZArith List Bool String Ascii Lia Permutation Sorted.
From Stdlib Require Import Floats.
Import ListNotations.

Local Open Scope string_scope.
Local Open Scope list_scope.
Local Open Scope Z_scope.
Set Warnings "-inexact-float".

(** ** Python and SQL primitives *)

(** SQL [coalesce(x, d)]. *)
Definition coalesce {A : Type} (x : option A) (d : A) : A :=
  match x with
  | Some v => v
  | None => d
  end.

(** Python [x or 0] on an [int]: a falsy [x] (zero) gives 0. *)
Definition or0 (x : Z) : Z := if x =? 0 then 0 else x.

(** Python [x or 0] on an optional [int]: [None] and zero are falsy. *)
Definition opt_or0 (x : option Z) : Z :=
  match x with
  | Some v => or0 v
  | None => 0
  end.

(** Python [not x] on an optional [int]. *)
Definition py_not (x : option Z) : bool :=
  match x with
  | Some v => v =? 0
  | None => true
  end.

(** Python [x or 0] on an optional [float]: [None] and the zeros are falsy
    (a NaN is truthy). *)
Definition float_or0 (x : option float) : float :=
  match x with
  | Some v => if PrimFloat.eqb v 0%float then 0%float else v
  | None => 0%float
  end.

(** The mathematical sum of a list of integers. *)
Definition sumZ (l : list Z) : Z := fold_right Z.add 0 l.

(** SQL [sum(...)] over integer rows: NULL when there is no row. *)
Definition sql_sum (l : list Z) : option Z :=
  match l with
  | [] => None
  | _ => Some (fold_left Z.add l 0)
  end.

(** The float sum of a list, accumulated row by row from zero. *)
Definition fsum (l : list float) : float := fold_left PrimFloat.add l 0%float.

(** An integer converted to a float: the nearest binary64 value. *)
Definition float_of_int (n : Z) : float :=
  SF2Prim (binary_normalize prec emax n 0 false).

(** Python's [x / n] for a float [x] and an int [n]: [ZeroDivisionError]
    (here [None]) when [n] is 0. *)
Definition py_truediv (x : float) (n : Z) : option float :=
  if n =? 0 then None else Some (x / float_of_int n)%float.

(** SQL [sum(...)] over float rows. *)
Definition sql_fsum (l : list float) : option float :=
  match l with
  | [] => None
  | _ => Some (fsum l)
  end.

(** SQL [avg(...)]: the sum of the group's values over their number, NULL
    when there is no row. *)
Definition sql_avg (l : list float) : option float :=
  match l with
  | [] => None
  | _ => Some (PrimFloat.div (fsum l) (float_of_int (Z.of_nat (List.length l))))
  end.

(** A Python [dict] with integer keys, as the list of its items. *)
Module dict.
Definition t (V : Type) : Type := list (Z * V).

Definition empty {V : Type} : t V := [].

Fixpoint get {V : Type} (d : t V) (k : Z) : option V :=
  match d with
  | [] => None
  | (k', v) :: rest => if k' =? k then Some v else get rest k
  end.

(** [d[k] = v]: replaces the value of an existing key. *)
Fixpoint set {V : Type} (d : t V) (k : Z) (v : V) : t V :=
  match d with
  | [] => [(k, v)]
  | (k', v') :: rest =>
      if k' =? k then (k, v) :: rest else (k', v') :: set rest k v
  end.

(** [{k: v for k, v in items}]. *)
Definition of_items {V : Type} (items : list (Z * V)) : t V :=
  fold_left (fun d kv => set d (fst kv) (snd kv)) items empty.

(** [d.get(k, default)]. *)
Definition get_default {V : Type} (d : t V) (k : Z) (default : V) : V :=
  coalesce (get d k) default.
End dict.

(** SQL [GROUP BY] on an integer key: the distinct keys, each with the rows
    of its group. *)
Definition group_by {A : Type} (key : A -> Z) (rows : list A) : list (Z * list A) :=
  map (fun k => (k, filter (fun r => key r =? k) rows))
      (nodup Z.eq_dec (map key rows)).

(** A stable insertion sort, for [ORDER BY]. *)
Fixpoint insert_by {A : Type} (leb : A -> A -> bool) (x : A) (l : list A) : list A :=
  match l with
  | [] => [x]
  | y :: rest => if leb x y then x :: l else y :: insert_by leb x rest
  end.

Definition order_by {A : Type} (leb : A -> A -> bool) (l : list A) : list A :=
  fold_right (insert_by leb) [] l.

(** ** Calendar dates *)

Record date := mkdate { year : Z; month : Z; day : Z }.

Definition is_leap (y : Z) : bool :=
  ((y mod 4 =? 0) && negb (y mod 100 =? 0)) || (y mod 400 =? 0).

Definition days_in_month (y m : Z) : Z :=
  if m =? 2 then (if is_leap y then 29 else 28)
  else if (m =? 4) || (m =? 6) || (m =? 9) || (m =? 11) then 30
  else 31.

(** The triples that are calendar dates. *)
Definition valid_date (d : date) : bool :=
  (1 <=? month d) && (month d <=? 12) &&
  (1 <=? day d) && (day d <=? days_in_month (year d) (month d)).

(** Date comparison: by year, then month, then day. *)
Definition date_compare (a b : date) : comparison :=
  match year a ?= year b with
  | Eq => match month a ?= month b with
          | Eq => day a ?= day b
          | c => c
          end
  | c => c
  end.

Definition date_eqb (a b : date) : bool :=
  match date_compare a b with Eq => true | _ => false end.

Definition date_ltb (a b : date) : bool :=
  match date_compare a b with Lt => true | _ => false end.

Definition date_leb (a b : date) : bool :=
  match date_compare a b with Gt => false | _ => true end.

(** [d.replace(day=1)]. *)
Definition replace_day1 (d : date) : date :=
  mkdate (year d) (month d) 1.

(** The calendar day before [d]. *)
Definition prev_day (d : date) : date :=
  if 1 <? day d then mkdate (year d) (month d) (day d - 1)
  else if 1 <? month d
       then mkdate (year d) (month d - 1) (days_in_month (year d) (month d - 1))
       else mkdate (year d - 1) 12 31.

(** [d - timedelta(days=n)]: [n] calendar days back. *)
Fixpoint sub_days (d : date) (n : nat) : date :=
  match n with
  | O => d
  | S k => sub_days (prev_day d) k
  end.

Definition digit (n : Z) : ascii := ascii_of_nat (48 + Z.to_nat (n mod 10)).

Definition zfill2 (n : Z) : string :=
  String (digit (n / 10)) (String (digit n) EmptyString).

Definition zfill4 (n : Z) : string :=
  String (digit (n / 1000)) (String (digit (n / 100)) (zfill2 n)).

(** [d.strftime("%Y-%m")], for the years 1 to 9999 of a Python date. *)
Definition strftime_Ym (d : date) : string :=
  (zfill4 (year d) ++ "-" ++ zfill2 (month d))%string.

(** ** The tables

    Each model class is a record of the columns the computations read. *)

Module User.
Record t := mk {
  id : Z;
  username : string;
  email : string;
  mobile : string;
  password_hash : string;
  role : string
}.
End User.

Module Buffalo.
Record t := mk {
  id : Z;
  tag_name : string;
  animal_type : string;
  status : string
}.
End Buffalo.

Module Worker.
Record t := mk {
  id : Z;
  name : string;
  mobile : string;
  salary_per_month : option Z;
  status : string
}.
End Worker.

Module SalaryPayment.
Record t := mk {
  id : Z;
  worker_id : Z;
  month : string;
  amount : Z;
  date_paid : date
}.
End SalaryPayment.

Module Expense.
Record t := mk {
  id : Z;
  date : date;
  category : string;
  amount : Z
}.
End Expense.

Module MilkRecord.
Record t := mk {
  id : Z;
  buffalo_id : Z;
  date : date;
  morning_litres : option float;
  evening_litres : option float
}.

(** The [total_litres] property. *)
Definition total_litres (self : t) : float :=
  let m := float_or0 (morning_litres self) in
  let e := float_or0 (evening_litres self) in
  (m + e)%float.
End MilkRecord.

(** The database: one list of rows per table. *)
Record database := mkdb {
  users : list User.t;
  buffaloes : list Buffalo.t;
  workers : list Worker.t;
  salary_payments : list SalaryPayment.t;
  expenses : list Expense.t;
  milk_records : list MilkRecord.t
}.

(** ** The dashboard (route "/")

    The handler's body; the [login_required] wrapper and the rendering of
    the template are outside the embedding, and so is the month label. *)

Module DueRow.
Record t := mk {
  worker : Worker.t;
  expected : Z;
  paid : Z;
  due : Z
}.
End DueRow.

Module Alert.
Record t := mk {
  buffalo : option Buffalo.t;
  today_total : float;
  avg_total : float
}.
End Alert.

Module Dashboard.
Record t := mk {
  total_buffaloes : nat;
  active_buffaloes : nat;
  total_workers : nat;
  active_workers : nat;
  month_salary_total : Z;
  month_expense_total : Z;
  month_total_cost : Z;
  month_str : string;
  due_workers : list DueRow.t;
  due_count : nat;
  low_milk_alerts : list Alert.t;
  low_milk_count : nat;
  today_milk_total : float;
  month_milk_total : float
}.
End Dashboard.

(** The first day of the month after the one [first_day] is in. *)
Definition next_month_first_of (first_day : date) : date :=
  if month first_day =? 12
  then mkdate (year first_day + 1) 1 1
  else mkdate (year first_day) (month first_day + 1) 1.

(** The bounds [first_day, next_month_first) of the expense query. *)
Definition expense_month_range (today : date) : date * date :=
  let first_day := replace_day1 today in
  let next_month_first := next_month_first_of first_day in
  (first_day, next_month_first).

(** The bounds [first_day_milk, next_month_first_milk) of the month milk
    query, computed a second time by the handler. *)
Definition milk_month_range (today : date) : date * date :=
  let first_day_milk := replace_day1 today in
  let next_month_first_milk := next_month_first_of first_day_milk in
  (first_day_milk, next_month_first_milk).

(** [date >= lo AND date < hi]. *)
Definition in_range (lo hi d : date) : bool :=
  date_leb lo d && date_ltb d hi.

(** The salary payments of the month [month_str]. *)
Definition payments_of_month (db : database) (month_str : string) : list SalaryPayment.t :=
  filter (fun p => String.eqb (SalaryPayment.month p) month_str) (salary_payments db).

(** The query
    [SELECT worker_id, coalesce(sum(amount), 0) ... WHERE month = :m GROUP BY worker_id]
    collected into the dict [payments_by_worker]. *)
Definition payments_by_worker (db : database) (month_str : string) : dict.t Z :=
  let payments :=
    map (fun g => (fst g, coalesce (sql_sum (map SalaryPayment.amount (snd g))) 0))
        (group_by SalaryPayment.worker_id (payments_of_month db month_str)) in
  dict.of_items payments.

(** The loop that fills [due_workers]: at most one entry per worker, in the
    order of the workers. *)
Definition due_workers_loop (active_workers_list : list Worker.t)
    (payments_by_worker : dict.t Z) : list DueRow.t :=
  flat_map
    (fun w =>
       if py_not (Worker.salary_per_month w) then []
       else
         let expected := opt_or0 (Worker.salary_per_month w) in
         let paid := or0 (dict.get_default payments_by_worker (Worker.id w) 0) in
         let due := expected - paid in
         if 0 <? due then [DueRow.mk w expected paid due] else [])
    active_workers_list.

(** The SQL expression
    [coalesce(morning_litres, 0) + coalesce(evening_litres, 0)]. *)
Definition sql_total_litres (r : MilkRecord.t) : float :=
  (coalesce (MilkRecord.morning_litres r) 0 + coalesce (MilkRecord.evening_litres r) 0)%float.

(** The records of the look-back window [start_period, today). *)
Definition window_records (db : database) (start_period today : date) : list MilkRecord.t :=
  filter (fun r => in_range start_period today (MilkRecord.date r)) (milk_records db).

(** The average query, grouped by animal, collected into [avg_by_buffalo]. *)
Definition avg_by_buffalo (db : database) (start_period today : date) : dict.t (option float) :=
  let avg_rows :=
    map (fun g => (fst g, sql_avg (map sql_total_litres (snd g))))
        (group_by MilkRecord.buffalo_id (window_records db start_period today)) in
  dict.of_items avg_rows.

(** The relationship [r.buffalo]. *)
Definition buffalo_of (db : database) (r : MilkRecord.t) : option Buffalo.t :=
  find (fun b => Buffalo.id b =? MilkRecord.buffalo_id r) (buffaloes db).

(** The low-milk block. Nothing in it raises on stored rows, so the
    handler's [except] branch is not reached. *)
Definition low_milk_alerts_of (db : database) (today : date) : list Alert.t :=
  let lookback_days := 7%nat in
  let start_period := sub_days today lookback_days in
  let avg_by_buffalo := avg_by_buffalo db start_period today in
  let today_records :=
    filter (fun r => date_eqb (MilkRecord.date r) today) (milk_records db) in
  flat_map
    (fun r =>
       match dict.get avg_by_buffalo (MilkRecord.buffalo_id r) with
       | Some (Some avg) =>
           let today_total :=
             (float_or0 (MilkRecord.morning_litres r) + float_or0 (MilkRecord.evening_litres r))%float in
           if (today_total <? 0.7 * avg)%float
           then [Alert.mk (buffalo_of db r) today_total avg]
           else []
       | _ => []
       end)
    today_records.

Definition dashboard (db : database) (today : date) : Dashboard.t :=
  let total_buffaloes := List.length (buffaloes db) in
  let active_buffaloes :=
    List.length (filter (fun b => String.eqb (Buffalo.status b) "active") (buffaloes db)) in
  let active_workers_list :=
    filter (fun w => String.eqb (Worker.status w) "active") (workers db) in
  let total_workers := List.length (workers db) in
  let active_workers_count := List.length active_workers_list in
  let month_str := strftime_Ym today in
  let month_salary_total :=
    coalesce (sql_sum (map SalaryPayment.amount (payments_of_month db month_str))) 0 in
  let '(first_day, next_month_first) := expense_month_range today in
  let month_expense_total :=
    coalesce
      (sql_sum (map Expense.amount
                  (filter (fun e => in_range first_day next_month_first (Expense.date e))
                          (expenses db)))) 0 in
  let month_total_cost := or0 month_salary_total + or0 month_expense_total in
  let due_workers := due_workers_loop active_workers_list (payments_by_worker db month_str) in
  let due_count := List.length due_workers in
  let low_milk_alerts := low_milk_alerts_of db today in
  let low_milk_count := List.length low_milk_alerts in
  let today_milk_total :=
    coalesce
      (sql_fsum (map sql_total_litres
                   (filter (fun r => date_eqb (MilkRecord.date r) today) (milk_records db))))
      0%float in
  let '(first_day_milk, next_month_first_milk) := milk_month_range today in
  let month_milk_total :=
    coalesce
      (sql_fsum (map sql_total_litres
                   (filter (fun r => in_range first_day_milk next_month_first_milk (MilkRecord.date r))
                           (milk_records db))))
      0%float in
  Dashboard.mk total_buffaloes active_buffaloes total_workers active_workers_count
    month_salary_total month_expense_total month_total_cost month_str
    due_workers due_count low_milk_alerts low_milk_count
    today_milk_total month_milk_total.

(** ** The salary report (route "/reports/salary") *)

Module ReportRow.
Record t := mk {
  worker : Worker.t;
  expected : Z;
  paid : Z;
  due : Z;
  status : string
}.
End ReportRow.

Module SalaryReport.
Record t := mk {
  month : string;
  month_values : list string;
  rows : list ReportRow.t;
  total_expected : Z;
  total_paid : Z;
  total_due : Z
}.
End SalaryReport.

(** The [if]/[elif] chain that assigns a row's status. *)
Definition salary_status (salary_per_month : option Z) (expected paid : Z) : string :=
  match salary_per_month with
  | None => "Salary not set"
  | Some _ =>
      if expected =? 0 then "Salary set as 0"
      else if paid =? 0 then "Not Paid"
      else if paid <? expected then "Partially Paid"
      else "Paid"
  end.

(** One iteration of the report loop: the row of worker [w]. *)
Definition report_row (payments_by_worker : dict.t Z) (w : Worker.t) : ReportRow.t :=
  let expected := opt_or0 (Worker.salary_per_month w) in
  let paid := or0 (dict.get_default payments_by_worker (Worker.id w) 0) in
  let due := Z.max (expected - paid) 0 in
  let status := salary_status (Worker.salary_per_month w) expected paid in
  ReportRow.mk w expected paid due status.

(** The loop state: [rows], [total_expected], [total_paid], [total_due]. *)
Definition report_step (payments_by_worker : dict.t Z)
    (acc : list ReportRow.t * Z * Z * Z) (w : Worker.t) : list ReportRow.t * Z * Z * Z :=
  let '(rows, total_expected, total_paid, total_due) := acc in
  let row := report_row payments_by_worker w in
  (rows ++ [row],
   total_expected + ReportRow.expected row,
   total_paid + ReportRow.paid row,
   total_due + ReportRow.due row).

(** The active workers, [ORDER BY name]. *)
Definition active_workers_by_name (db : database) : list Worker.t :=
  order_by (fun a b => String.leb (Worker.name a) (Worker.name b))
    (filter (fun w => String.eqb (Worker.status w) "active") (workers db)).

Definition salary_report (db : database) (month_arg : string) (today : date) : SalaryReport.t :=
  let month := if String.eqb month_arg "" then strftime_Ym today else month_arg in
  let month_values :=
    order_by (fun a b => String.leb b a)
      (nodup string_dec (map SalaryPayment.month (salary_payments db))) in
  let active_workers := active_workers_by_name db in
  let payments_by_worker := payments_by_worker db month in
  let '(rows, total_expected, total_paid, total_due) :=
    fold_left (report_step payments_by_worker) active_workers ([], 0, 0, 0) in
  SalaryReport.mk month month_values rows total_expected total_paid total_due.

(** ** The per-animal milk summary (route "/buffaloes/<id>/milk-summary") *)

(** What a handler returns: [abort(404)], an exception that nothing
    catches, or the values handed to the template. *)
Inductive outcome (A : Type) : Type :=
| NotFound : outcome A
| Raised : string -> outcome A
| Rendered : A -> outcome A.
Arguments NotFound {A}.
Arguments Raised {A} _.
Arguments Rendered {A} _.

Module MilkSummary.
Record t := mk {
  buffalo : Buffalo.t;
  first_date : option date;
  last_date : option date;
  total_litres : float;
  days_count : Z;
  avg_per_day : float;
  records : list MilkRecord.t
}.
End MilkSummary.

Definition date_eq_dec (a b : date) : {a = b} + {a <> b}.
Proof. repeat decide equality. Defined.

Definition date_min (a b : date) : date := if date_leb a b then a else b.
Definition date_max (a b : date) : date := if date_leb a b then b else a.

(** SQL [min(date)] and [max(date)]: NULL when there is no row. *)
Definition sql_min_date (l : list date) : option date :=
  match l with
  | [] => None
  | d :: rest => Some (fold_left date_min rest d)
  end.

Definition sql_max_date (l : list date) : option date :=
  match l with
  | [] => None
  | d :: rest => Some (fold_left date_max rest d)
  end.

(** SQL [count(distinct date)]. *)
Definition sql_count_distinct (l : list date) : Z :=
  Z.of_nat (List.length (nodup date_eq_dec l)).

Definition buffalo_milk_summary (db : database) (buffalo_id : Z) : outcome MilkSummary.t :=
  match find (fun b => Buffalo.id b =? buffalo_id) (buffaloes db) with
  | None => NotFound
  | Some buffalo =>
      let q := filter (fun r => MilkRecord.buffalo_id r =? buffalo_id) (milk_records db) in
      let first_date := sql_min_date (map MilkRecord.date q) in
      let last_date := sql_max_date (map MilkRecord.date q) in
      let total_litres := coalesce (sql_fsum (map sql_total_litres q)) 0%float in
      let days_count := sql_count_distinct (map MilkRecord.date q) in
      let avg_per_day :=
        if negb (days_count =? 0) && (0 <? days_count)
        then py_truediv total_litres days_count
        else Some 0%float in
      match avg_per_day with
      | None => Raised "ZeroDivisionError"
      | Some avg_per_day =>
          let records :=
            order_by (fun a b => date_leb (MilkRecord.date a) (MilkRecord.date b)) q in
          Rendered (MilkSummary.mk buffalo first_date last_date total_litres
                      days_count avg_per_day records)
      end
  end.

(** ** Registration (route "/register") *)

Module Request.
Record t := mk {
  session_user_id : option Z;
  method : string;
  form : list (string * string)
}.

(** [request.form.get(key, default)]. *)
Definition form_get (r : t) (key default : string) : string :=
  match find (fun kv => String.eqb (fst kv) key) (form r) with
  | Some kv => snd kv
  | None => default
  end.
End Request.

(** What the handler answers with. *)
Inductive response : Type :=
| Redirect (endpoint : string)
| RenderTemplate (template : string).

(** The result of a handler that writes: the database after it, the
    messages it flashed (text and category), and its response. *)
Definition handled : Type := database * list (string * string) * response.

(** The next value of an integer primary key: one more than the largest
    row id, 1 in an empty table. *)
Definition next_id (ids : list Z) : Z := fold_right Z.max 0 ids + 1.

Section Register.

(** Python's [str.strip], [str.lower], [str.isalpha], [str.isdigit] and
    werkzeug's [generate_password_hash] are library code: parameters. *)
Variable strip : string -> string.
Variable lower : string -> string.
Variable isalpha isdigit : ascii -> bool.
Variable generate_password_hash : string -> string.

(** Returns (ok, message). *)
Definition validate_password (password : string) : bool * string :=
  if (String.length password <? 8)%nat
  then (false, "Password must be at least 8 characters long.")
  else
    let has_letter := existsb isalpha (list_ascii_of_string password) in
    let has_digit := existsb isdigit (list_ascii_of_string password) in
    if negb has_letter || negb has_digit
    then (false, "Password must contain at least one letter and one number.")
    else (true, "").

Definition is_empty (s : string) : bool := String.eqb s "".

Definition register (db : database) (request : Request.t) : handled :=
  if negb (py_not (Request.session_user_id request))
  then (db, [], Redirect "dashboard")
  else if String.eqb (Request.method request) "POST" then
    let username := strip (Request.form_get request "username" "") in
    let email := lower (strip (Request.form_get request "email" "")) in
    let mobile := strip (Request.form_get request "mobile" "") in
    let password := Request.form_get request "password" "" in
    let confirm_password := Request.form_get request "confirm_password" "" in
    if is_empty username || is_empty email || is_empty mobile || is_empty password
    then (db, [("Username, email, mobile and password are required.", "error")],
          Redirect "register")
    else if negb (String.eqb password confirm_password)
    then (db, [("Passwords do not match.", "error")], Redirect "register")
    else
      let '(ok, msg) := validate_password password in
      if negb ok then (db, [(msg, "error")], Redirect "register")
      else if existsb (fun u => String.eqb (User.username u) username) (users db)
      then (db, [("Username already taken.", "error")], Redirect "register")
      else if existsb (fun u => String.eqb (User.email u) email) (users db)
      then (db, [("Email already registered.", "error")], Redirect "register")
      else if existsb (fun u => String.eqb (User.mobile u) mobile) (users db)
      then (db, [("Mobile number already registered.", "error")], Redirect "register")
      else
        let is_first_user := (List.length (users db) =? 0)%nat in
        let role := if is_first_user then "admin" else "user" in
        let user :=
          User.mk (next_id (map User.id (users db))) username email mobile
            (generate_password_hash password) role in
        (mkdb (users db ++ [user]) (buffaloes db) (workers db)
           (salary_payments db) (expenses db) (milk_records db),
         [("Account created successfully. Please login.", "success")],
         Redirect "login")
  else (db, [], RenderTemplate "register.html").

(** A run of registration requests, each on the database the previous
    one left. *)
Definition register_all (db : database) (requests : list Request.t) : database :=
  fold_left (fun d r => fst (fst (register d r))) requests db.

End Register.

(** ** Reference quantities used in the statements *)

(** What a worker was paid for a month: the sum of the amounts of the
    worker's salary payments whose month is [month_str] (0 if none). *)
Definition month_paid (db : database) (month_str : string) (worker_id : Z) : Z :=
  sumZ (map SalaryPayment.amount
          (filter (fun p => SalaryPayment.worker_id p =? worker_id)
                  (payments_of_month db month_str))).

(** The active workers, in table order. *)
Definition active_workers_of (db : database) : list Worker.t :=
  filter (fun w => String.eqb (Worker.status w) "active") (workers db).

(** The sum of the amounts of the expenses dated in [lo, hi). *)
Definition expense_total_between (db : database) (lo hi : date) : Z :=
  sumZ (map Expense.amount
          (filter (fun e => in_range lo hi (Expense.date e)) (expenses db))).

(** The sum of the amounts of the salary payments of a month. *)
Definition salary_total_of_month (db : database) (month_str : string) : Z :=
  sumZ (map SalaryPayment.amount (payments_of_month db month_str)).

(** The litres of the milk records dated in [lo, hi), 0 if there is none. *)
Definition milk_total_between (db : database) (lo hi : date) : float :=
  coalesce
    (sql_fsum (map sql_total_litres
                 (filter (fun r => in_range lo hi (MilkRecord.date r)) (milk_records db))))
    0%float.

(** The report row a worker is due for a month: the expected salary (0 when
    none is set), what was paid, the due amount floored at 0, and the
    status. *)
Definition report_row_of (db : database) (month_str : string) (w : Worker.t) : ReportRow.t :=
  let expected := coalesce (Worker.salary_per_month w) 0 in
  let paid := month_paid db month_str (Worker.id w) in
  ReportRow.mk w expected paid (Z.max (expected - paid) 0)
    (salary_status (Worker.salary_per_month w) expected paid).

(** The five status cases as the specification words them, tried in order
    (the fourth as [0 < paid < expected]); [None] when none of them
    applies. Kept apart from [salary_status], which follows the code. *)
Definition stated_status (salary_per_month : option Z) (expected paid : Z) : option string :=
  match salary_per_month with
  | None => Some "Salary not set"
  | Some _ =>
      if expected =? 0 then Some "Salary set as 0"
      else if paid =? 0 then Some "Not Paid"
      else if (0 <? paid) && (paid <? expected) then Some "Partially Paid"
      else if expected <=? paid then Some "Paid"
      else None
  end.

(** A small database: one active worker with a salary of 1000 and one
    payment of -500 (a correction entry) for December 2025. *)
Definition db_negative_payment : database :=
  mkdb [] []
    [Worker.mk 1 "Asha" "9000000001" (Some 1000) "active"]
    [SalaryPayment.mk 1 1 "2025-12" (-500) (mkdate 2025 12 10)]
    [] [].

(** The message flashed by a registration that creates an account. *)
Definition account_created : list (string * string) :=
  [("Account created successfully. Please login.", "success")].

(** Two floats that are the same number: equal, or both a zero (the two
    zeros differ only in sign and compare equal). *)
Definition same_number (x y : float) : Prop :=
  x = y \/ (PrimFloat.eqb x 0%float = true /\ PrimFloat.eqb y 0%float = true).

(** The records of animal [buffalo_id] in the seven days before [today]. *)
Definition prior_records (db : database) (today : date) (buffalo_id : Z) : list MilkRecord.t :=
  filter (fun r => MilkRecord.buffalo_id r =? buffalo_id)
         (window_records db (sub_days today 7) today).

(** The mean of the litres of these records: their sum over their number;
    nothing when there is no such record. *)
Definition week_average (db : database) (today : date) (buffalo_id : Z) : option float :=
  match prior_records db today buffalo_id with
  | [] => None
  | prior =>
      Some (fsum (map sql_total_litres prior) /
            float_of_int (Z.of_nat (List.length prior)))%float
  end.

(** The alert a record of today gives, if any. *)
Definition low_yield_alert (db : database) (today : date) (r : MilkRecord.t) : option Alert.t :=
  match week_average db today (MilkRecord.buffalo_id r) with
  | None => None
  | Some avg =>
      if (MilkRecord.total_litres r <? 0.7 * avg)%float
      then Some (Alert.mk (buffalo_of db r) (MilkRecord.total_litres r) avg)
      else None
  end.

Definition option_list {A : Type} (x : option A) : list A :=
  match x with
  | Some a => [a]
  | None => []
  end.

(** The records dated [today]. *)
Definition todays_records (db : database) (today : date) : list MilkRecord.t :=
  filter (fun r => date_eqb (MilkRecord.date r) today) (milk_records db).


(** A database for the examples: one animal with 10 litres a day on each
    of the seven days before 2025-12-15, and [today_morning] litres on that
    day. *)
Definition db_ten_litres_a_day (today_morning : float) : database :=
  mkdb [] [Buffalo.mk 1 "B-01" "buffalo" "active"] [] [] []
    (map (fun n => MilkRecord.mk n 1 (mkdate 2025 12 (7 + n))
                     (Some 5.0%float) (Some 5.0%float))
         [1; 2; 3; 4; 5; 6; 7]
     ++ [MilkRecord.mk 8 1 (mkdate 2025 12 15) (Some today_morning) None]).

(** One animal with records on two of the seven days before 2025-12-15
    only, of 8 and 12 litres. *)
Definition db_two_days_recorded : database :=
  mkdb [] [Buffalo.mk 1 "B-01" "buffalo" "active"] [] [] []
    [MilkRecord.mk 1 1 (mkdate 2025 12 9) (Some 8.0%float) None;
     MilkRecord.mk 2 1 (mkdate 2025 12 13) (Some 6.0%float) (Some 6.0%float)].



(** The milk records of an animal. *)
Definition records_of (db : database) (buffalo_id : Z) : list MilkRecord.t :=
  filter (fun r => MilkRecord.buffalo_id r =? buffalo_id) (milk_records db).

(** A farm for the examples: three active workers (one paid in part, one
    without a salary, one paid more than the salary), one who left, the
    payments of December 2025 and one of November, and three expenses. *)
Definition db_farm : database :=
  mkdb [] []
    [Worker.mk 1 "Asha" "9000000001" (Some 1000) "active";
     Worker.mk 2 "Bilal" "9000000002" None "active";
     Worker.mk 3 "Chitra" "9000000003" (Some 500) "active";
     Worker.mk 4 "Dev" "9000000004" (Some 800) "left"]
    [SalaryPayment.mk 1 1 "2025-12" 300 (mkdate 2025 12 5);
     SalaryPayment.mk 2 3 "2025-12" 700 (mkdate 2025 12 6);
     SalaryPayment.mk 3 1 "2025-12" 100 (mkdate 2025 12 20);
     SalaryPayment.mk 4 1 "2025-11" 1000 (mkdate 2025 11 28)]
    [Expense.mk 1 (mkdate 2025 11 30) "feed" 250;
     Expense.mk 2 (mkdate 2025 12 1) "feed" 400;
     Expense.mk 3 (mkdate 2025 12 31) "medicine" 150;
     Expense.mk 4 (mkdate 2026 1 1) "feed" 90]
    [].

(** The tests of [str.isalpha] and [str.isdigit] on ASCII characters, for
    the examples of registration. *)
Definition ascii_isalpha (c : ascii) : bool :=
  let n := nat_of_ascii c in
  ((65 <=? n)%nat && (n <=? 90)%nat) || ((97 <=? n)%nat && (n <=? 122)%nat).

Definition ascii_isdigit (c : ascii) : bool :=
  let n := nat_of_ascii c in (48 <=? n)%nat && (n <=? 57)%nat.

(** A registration form posted without a session. *)
Definition registration_of (username email mobile password : string) : Request.t :=
  Request.mk None "POST"
    [("username", username); ("email", email); ("mobile", mobile);
     ("password", password); ("confirm_password", password)].

Definition db_empty : database := mkdb [] [] [] [] [] [].

(** ** Further reference notions *)

(** The rows of a users table differ pairwise in their id (the primary
    key) and in each of the three unique columns. *)
Definition users_distinct (us : list User.t) : Prop :=
  NoDup (map User.id us) /\ NoDup (map User.username us) /\
  NoDup (map User.email us) /\ NoDup (map User.mobile us).

(** ** Sessions, requests and what a handler does

    The handlers below read the session and the request and may write the
    database and the session; [url_for(endpoint)] is the endpoint's name. *)

Module Session.
Record t := mk {
  user_id : option Z;
  username : option string;
  role : option string
}.

(** [session.clear()]. *)
Definition cleared : t := mk None None None.

(** [session.get("user_id")] is truthy. *)
Definition has_user (s : t) : bool := negb (py_not (user_id s)).

(** [session.get("role") == r]. *)
Definition role_is (s : t) (r : string) : bool :=
  match role s with
  | Some x => String.eqb x r
  | None => false
  end.
End Session.

Module Http.
Record request := mk {
  method : string;
  form : list (string * string);
  args : list (string * string)
}.

(** [d.get(key)] on form or query data: the first value of the key. *)
Definition lookup (d : list (string * string)) (key : string) : option string :=
  option_map snd (find (fun kv => String.eqb (fst kv) key) d).

(** [request.form.get(key, default)]. *)
Definition form_get (r : request) (key default : string) : string :=
  coalesce (lookup (form r) key) default.
End Http.

(** Python truthiness of an optional string: [None] and [""] are falsy. *)
Definition str_truthy (x : option string) : bool :=
  match x with
  | Some s => negb (String.eqb s "")
  | None => false
  end.


(** What a handler did: the database and the session it leaves, the
    messages it flashed, and its answer ([abort(404)], an exception, or a
    response). *)
Module Effect.
Record t := mk {
  db : database;
  session : Session.t;
  flashed : list (string * string);
  reply : outcome response
}.
End Effect.

Definition handler : Type := database -> Session.t -> Http.request -> Effect.t.

(** The decorator [login_required]. *)
Definition login_required (f : handler) : handler :=
  fun db session request =>
    if negb (Session.has_user session)
    then Effect.mk db session [] (Rendered (Redirect "login"))
    else f db session request.

(** The decorator [admin_required]. *)
Definition admin_required (f : handler) : handler :=
  fun db session request =>
    if negb (Session.has_user session)
    then Effect.mk db session [] (Rendered (Redirect "admin_login"))
    else if negb (Session.role_is session "admin")
    then Effect.mk db session [("Admin access required.", "error")]
           (Rendered (Redirect "dashboard"))
    else f db session request.

(** [User.query.get(user_id)]. *)
Definition get_user (db : database) (user_id : Z) : option User.t :=
  find (fun u => User.id u =? user_id) (users db).

(** The database after [db.session.delete(user)] and the commit. *)
Definition delete_user (db : database) (user : User.t) : database :=
  mkdb (filter (fun u => negb (User.id u =? User.id user)) (users db))
    (buffaloes db) (workers db) (salary_payments db) (expenses db) (milk_records db).


Section Auth.

(** [str.strip] and werkzeug's [check_password_hash]: parameters. *)
Variable strip : string -> string.
Variable check_password_hash : string -> string -> bool.




(** Route "/logout". *)
Definition logout : handler :=
  login_required
    (fun db session request =>
       Effect.mk db Session.cleared [("Logged out.", "success")]
         (Rendered (Redirect "login"))).

(** Route "/account/delete". *)
Definition account_delete : handler :=
  login_required
    (fun db session request =>
       match get_user db (coalesce (Session.user_id session) 0) with
       | None => Effect.mk db session [] NotFound
       | Some user =>
           if String.eqb (User.role user) "admin"
           then Effect.mk db session
                  [("Admin account cannot be deleted. Use admin panel to manage users.",
                    "error")]
                  (Rendered (Redirect "dashboard"))
           else if String.eqb (Http.method request) "POST" then
             let password := Http.form_get request "password" "" in
             if negb (check_password_hash (User.password_hash user) password)
             then Effect.mk db session
                    [("Incorrect password. Account not deleted.", "error")]
                    (Rendered (Redirect "account_delete"))
             else Effect.mk (delete_user db user) Session.cleared
                    [("Your account has been deleted.", "success")]
                    (Rendered (Redirect "login"))
           else Effect.mk db session [] (Rendered (RenderTemplate "account_delete.html"))
       end).

End Auth.

(** Route "/admin/users/<user_id>/delete" (POST only). *)
Definition admin_user_delete (user_id : Z) : handler :=
  admin_required
    (fun db session request =>
       match get_user db user_id with
       | None => Effect.mk db session [] NotFound
       | Some user =>
           if String.eqb (User.role user) "admin"
           then Effect.mk db session
                  [("Admin accounts cannot be deleted from this page.", "error")]
                  (Rendered (Redirect "admin_users"))
           else Effect.mk (delete_user db user) session
                  [(("User '" ++ User.username user ++ "' deleted successfully.")%string,
                    "success")]
                  (Rendered (Redirect "admin_users"))
       end).

(** The admin accounts of a users table. *)
Definition admins (us : list User.t) : list User.t :=
  filter (fun u => String.eqb (User.role u) "admin") us.

(** A request to one of the three handlers that write the users table,
    with the session it comes with. *)
Inductive account_request : Type :=
| ToRegister (request : Request.t)
| ToAccountDelete (session : Session.t) (request : Http.request)
| ToAdminUserDelete (user_id : Z) (session : Session.t) (request : Http.request).

Section Accounts.

Variable strip : string -> string.
Variable lower : string -> string.
Variable isalpha isdigit : ascii -> bool.
Variable generate_password_hash : string -> string.
Variable check_password_hash : string -> string -> bool.

(** The database after a request. *)
Definition serve (db : database) (q : account_request) : database :=
  match q with
  | ToRegister request =>
      fst (fst (register strip lower isalpha isdigit generate_password_hash db request))
  | ToAccountDelete session request =>
      Effect.db (account_delete check_password_hash db session request)
  | ToAdminUserDelete user_id session request =>
      Effect.db (admin_user_delete user_id db session request)
  end.

(** The database after a sequence of requests. *)
Definition serve_all (db : database) (qs : list account_request) : database :=
  fold_left serve qs db.

End Accounts.

(** A database with the admin registered first and one user. *)
Definition db_two_accounts : database :=
  mkdb [User.mk 1 "asha" "asha@example.org" "9000000001" "milk2025x" "admin";
        User.mk 2 "bilal" "bilal@example.org" "9000000002" "ghee2025y" "user"]
    [] [] [] [] [].

(** A users table that is empty, or whose first row is an admin and whose
    other rows are users. *)
Definition admin_first (us : list User.t) : Prop :=
  match us with
  | [] => True
  | first :: others =>
      User.role first = "admin" /\ Forall (fun u => User.role u = "user") others
  end.

(** ** Password reset by OTP (routes "/forgot-password" and
    "/reset-password-otp")

    These handlers read and write the two reset columns of the users
    table. A row is a [User.t] with these columns; [datetime] values are
    counts of microseconds, and [datetime.utcnow()] is an argument. *)

Module Account.
Record t := mk {
  user : User.t;
  reset_token : option string;
  reset_expires_at : option Z
}.
End Account.

(** [timedelta(minutes=10)], in microseconds. *)
Definition ten_minutes : Z := 600000000.

(** [generate_otp_code(length)]: [length] characters drawn from the ten
    digits; [draw i] stands for the i-th random draw of [secrets.choice]. *)
Definition generate_otp_code (draw : nat -> nat) (length : nat) : string :=
  let digits := list_ascii_of_string "0123456789" in
  string_of_list_ascii
    (map (fun i => nth (draw i mod 10)%nat digits "0"%char) (seq 0 length)).

(** [User.query.filter_by(mobile=mobile).first()]. *)
Definition account_by_mobile (accounts : list Account.t) (mobile : string) : option Account.t :=
  find (fun a => String.eqb (User.mobile (Account.user a)) mobile) accounts.

(** The table after the row of [account] was changed to [changed] and
    committed. *)
Definition update_account (accounts : list Account.t) (account changed : Account.t) : list Account.t :=
  map (fun a => if User.id (Account.user a) =? User.id (Account.user account)
                then changed else a) accounts.

Definition set_password_hash (u : User.t) (h : string) : User.t :=
  User.mk (User.id u) (User.username u) (User.email u) (User.mobile u) h (User.role u).

(** What a reset handler did: the users table it leaves, the messages it
    flashed, its response, and the OTP it handed to [send_otp_via_mobile]
    with the mobile it is for. *)
Module ResetEffect.
Record t := mk {
  accounts : list Account.t;
  flashed : list (string * string);
  response : response;
  sent : option (string * string)
}.
End ResetEffect.

Section PasswordReset.

Variable strip : string -> string.
Variable isalpha isdigit : ascii -> bool.
Variable generate_password_hash : string -> string.

Definition forgot_password (draw : nat -> nat) (utcnow : Z)
    (accounts : list Account.t) (request : Http.request) : ResetEffect.t :=
  if String.eqb (Http.method request) "POST" then
    let mobile := strip (Http.form_get request "mobile" "") in
    if is_empty mobile
    then ResetEffect.mk accounts
           [("Please enter your registered mobile number.", "error")]
           (Redirect "forgot_password") None
    else
      match account_by_mobile accounts mobile with
      | None =>
          ResetEffect.mk accounts
            [("If this mobile is registered, an OTP has been sent.", "info")]
            (Redirect "forgot_password") None
      | Some user =>
          let otp := generate_otp_code draw 6 in
          let changed :=
            Account.mk (Account.user user) (Some otp) (Some (utcnow + ten_minutes)) in
          ResetEffect.mk (update_account accounts user changed)
            [("If this mobile is registered, an OTP has been sent.", "info")]
            (Redirect "reset_password_otp")
            (Some (User.mobile (Account.user user), otp))
      end
  else ResetEffect.mk accounts [] (RenderTemplate "forgot_password_mobile.html") None.

Definition reset_password_otp (utcnow : Z)
    (accounts : list Account.t) (request : Http.request) : ResetEffect.t :=
  if String.eqb (Http.method request) "POST" then
    let mobile := strip (Http.form_get request "mobile" "") in
    let otp := strip (Http.form_get request "otp" "") in
    let password := Http.form_get request "password" "" in
    let confirm_password := Http.form_get request "confirm_password" "" in
    if is_empty mobile || is_empty otp || is_empty password
    then ResetEffect.mk accounts
           [("Mobile, OTP and new password are required.", "error")]
           (Redirect "reset_password_otp") None
    else
      match account_by_mobile accounts mobile with
      | None =>
          ResetEffect.mk accounts [("Invalid mobile or OTP.", "error")]
            (Redirect "reset_password_otp") None
      | Some user =>
          if negb (str_truthy (Account.reset_token user))
             || negb (String.eqb (coalesce (Account.reset_token user) "") otp)
          then ResetEffect.mk accounts [("Invalid OTP.", "error")]
                 (Redirect "reset_password_otp") None
          else if match Account.reset_expires_at user with
                  | None => true
                  | Some expires => expires <? utcnow
                  end
          then ResetEffect.mk accounts
                 [("OTP expired. Please request a new one.", "error")]
                 (Redirect "forgot_password") None
          else if negb (String.eqb password confirm_password)
          then ResetEffect.mk accounts [("Passwords do not match.", "error")]
                 (Redirect "reset_password_otp") None
          else
            let '(ok, msg) := validate_password isalpha isdigit password in
            if negb ok
            then ResetEffect.mk accounts [(msg, "error")]
                   (Redirect "reset_password_otp") None
            else
              let changed :=
                Account.mk
                  (set_password_hash (Account.user user) (generate_password_hash password))
                  None None in
              ResetEffect.mk (update_account accounts user changed)
                [("Password updated successfully. Please login.", "success")]
                (Redirect "login") None
      end
  else ResetEffect.mk accounts [] (RenderTemplate "reset_password_otp.html") None.

End PasswordReset.

(** The decimal digits. *)
Definition is_decimal_digit (c : ascii) : Prop :=
  In c (list_ascii_of_string "0123456789").

(** Two accounts for the examples; neither has asked for an OTP. *)
Definition accounts_two : list Account.t :=
  [Account.mk (User.mk 1 "asha" "asha@example.org" "9000000001" "milk2025x" "admin")
     None None;
   Account.mk (User.mk 2 "bilal" "bilal@example.org" "9000000002" "ghee2025y" "user")
     None None].

(** ** Entering and deleting payments, expenses and milk records *)

Definition with_salary_payments (db : database) (ps : list SalaryPayment.t) : database :=
  mkdb (users db) (buffaloes db) (workers db) ps (expenses db) (milk_records db).

Definition with_expenses (db : database) (es : list Expense.t) : database :=
  mkdb (users db) (buffaloes db) (workers db) (salary_payments db) es (milk_records db).

Definition with_milk_records (db : database) (rs : list MilkRecord.t) : database :=
  mkdb (users db) (buffaloes db) (workers db) (salary_payments db) (expenses db) rs.

(** An answer without any write. *)
Definition answer (db : database) (session : Session.t)
    (flashed : list (string * string)) (r : response) : Effect.t :=
  Effect.mk db session flashed (Rendered r).

(** An exception that no handler catches: nothing is committed. *)
Definition raised (db : database) (session : Session.t) (exc : string) : Effect.t :=
  Effect.mk db session [] (Raised exc).

Section DataEntry.

(** Python's [int(s)], [float(s)] and
    [datetime.strptime(s, "%Y-%m-%d").date()] are library code:
    parameters, [None] standing for [ValueError]. *)
Variable int_of_str : string -> option Z.
Variable float_of_str : string -> option float.
Variable strptime_Ymd : string -> option date.


(** Route "/salaries/add". *)
Definition salary_add : handler :=
  login_required
    (fun db session request =>
       if String.eqb (Http.method request) "POST" then
         let worker_id := Http.lookup (Http.form request) "worker_id" in
         let month := Http.lookup (Http.form request) "month" in
         let amount := Http.lookup (Http.form request) "amount" in
         let date_paid_str := Http.lookup (Http.form request) "date_paid" in
         if negb (str_truthy worker_id) || negb (str_truthy month)
            || negb (str_truthy amount) || negb (str_truthy date_paid_str)
         then answer db session
                [("Worker, month, amount and date paid are required.", "error")]
                (Redirect "salary_add")
         else
           match strptime_Ymd (coalesce date_paid_str "") with
           | None =>
               answer db session [("Invalid paid date.", "error")] (Redirect "salary_add")
           | Some date_paid =>
               match int_of_str (coalesce worker_id ""), int_of_str (coalesce amount "") with
               | Some w, Some a =>
                   let payment :=
                     SalaryPayment.mk
                       (next_id (map SalaryPayment.id (salary_payments db)))
                       w (coalesce month "") a date_paid in
                   answer (with_salary_payments db (salary_payments db ++ [payment]))
                     session [("Salary payment recorded successfully!", "success")]
                     (Redirect "salary_list")
               | _, _ => raised db session "ValueError"
               end
           end
       else answer db session [] (RenderTemplate "salary_form.html")).

(** Route "/expenses/add". *)
Definition expense_add : handler :=
  login_required
    (fun db session request =>
       if String.eqb (Http.method request) "POST" then
         let date_str := Http.lookup (Http.form request) "date" in
         let category := Http.lookup (Http.form request) "category" in
         let amount := Http.lookup (Http.form request) "amount" in
         if negb (str_truthy date_str) || negb (str_truthy category)
            || negb (str_truthy amount)
         then answer db session
                [("Date, category and amount are required.", "error")]
                (Redirect "expense_add")
         else
           match strptime_Ymd (coalesce date_str "") with
           | None => answer db session [("Invalid date.", "error")] (Redirect "expense_add")
           | Some date_val =>
               match int_of_str (coalesce amount "") with
               | Some a =>
                   let expense :=
                     Expense.mk (next_id (map Expense.id (expenses db)))
                       date_val (coalesce category "") a in
                   answer (with_expenses db (expenses db ++ [expense])) session
                     [("Expense recorded successfully!", "success")]
                     (Redirect "expense_list")
               | None => raised db session "ValueError"
               end
           end
       else answer db session [] (RenderTemplate "expense_form.html")).


End DataEntry.

(** Route "/salaries/<payment_id>/delete" (POST only). *)
Definition salary_delete (payment_id : Z) : handler :=
  admin_required
    (fun db session request =>
       match find (fun p => SalaryPayment.id p =? payment_id) (salary_payments db) with
       | None => Effect.mk db session [] NotFound
       | Some payment =>
           answer
             (with_salary_payments db
                (filter (fun p => negb (SalaryPayment.id p =? SalaryPayment.id payment))
                        (salary_payments db)))
             session [("Salary payment deleted.", "success")] (Redirect "salary_list")
       end).

(** Route "/expenses/<expense_id>/delete" (POST only). *)
Definition expense_delete (expense_id : Z) : handler :=
  admin_required
    (fun db session request =>
       match find (fun e => Expense.id e =? expense_id) (expenses db) with
       | None => Effect.mk db session [] NotFound
       | Some expense =>
           answer
             (with_expenses db
                (filter (fun e => negb (Expense.id e =? Expense.id expense)) (expenses db)))
             session [("Expense deleted.", "success")] (Redirect "expense_list")
       end).

(** Route "/milk-records/<record_id>/delete" (POST only). *)
Definition milk_record_delete (record_id : Z) : handler :=
  admin_required
    (fun db session request =>
       match find (fun r => MilkRecord.id r =? record_id) (milk_records db) with
       | None => Effect.mk db session [] NotFound
       | Some record =>
           answer
             (with_milk_records db
                (filter (fun r => negb (MilkRecord.id r =? MilkRecord.id record))
                        (milk_records db)))
             session [("Milk record deleted.", "success")] (Redirect "milk_record_list")
       end).

(** ** The payment list (route "/salaries")

    The rows the handler selects, which it renders as a page or writes as
    CSV. *)

(** [SalaryPayment.query.join(Worker)]: the payments with their worker. *)
Definition payments_with_worker (db : database) : list (SalaryPayment.t * Worker.t) :=
  flat_map
    (fun p => map (fun w => (p, w))
                  (filter (fun w => Worker.id w =? SalaryPayment.worker_id p) (workers db)))
    (salary_payments db).

(** The [payments] of [salary_list]. *)
Definition salary_list (db : database) (month : string) : list SalaryPayment.t :=
  let query := payments_with_worker db in
  let query :=
    if negb (String.eqb month "")
    then filter (fun pw => String.eqb (SalaryPayment.month (fst pw)) month) query
    else query in
  map fst
    (order_by (fun a b => date_leb (SalaryPayment.date_paid (fst b))
                                   (SalaryPayment.date_paid (fst a))) query).

(** ** Example readers and requests *)

Definition digit_value (c : ascii) : option Z :=
  let n := Z.of_nat (nat_of_ascii c) in
  if (48 <=? n) && (n <=? 57) then Some (n - 48) else None.

Fixpoint digits_value (acc : Z) (s : string) : option Z :=
  match s with
  | EmptyString => Some acc
  | String c s' =>
      match digit_value c with
      | Some d => digits_value (10 * acc + d) s'
      | None => None
      end
  end.

(** [int] on a string of decimal digits. *)
Definition int_of_digits (s : string) : option Z :=
  if String.eqb s "" then None else digits_value 0 s.


(** [strptime(s, "%Y-%m-%d").date()] on a date written "YYYY-MM-DD". *)
Definition date_of_iso (s : string) : option date :=
  match int_of_digits (substring 0 4 s), int_of_digits (substring 5 2 s),
        int_of_digits (substring 8 2 s) with
  | Some y, Some m, Some d =>
      if (String.length s =? 10)%nat && String.eqb (substring 4 1 s) "-"
         && String.eqb (substring 7 1 s) "-" && valid_date (mkdate y m d)
      then Some (mkdate y m d)
      else None
  | _, _, _ => None
  end.

Definition post (form : list (string * string)) : Http.request :=
  Http.mk "POST" form [].

Definition session_user : Session.t := Session.mk (Some 2) (Some "bina") (Some "user").

Definition session_admin : Session.t := Session.mk (Some 1) (Some "asha") (Some "admin").

Definition pay_chitra : Http.request :=
  post [("worker_id", "3"); ("month", "2025-12"); ("amount", "200");
        ("date_paid", "2025-12-21")].

Definition pay_nobody : Http.request :=
  post [("worker_id", "9"); ("month", "2025-12"); ("amount", "50");
        ("date_paid", "2025-12-22")].

Definition buy_feed : Http.request :=
  post [("date", "2025-12-10"); ("category", "feed"); ("amount", "120")].


(** * Properties *)

(** ** Sums, [x or 0], dicts and groups *)

Lemma or0_id (x : Z) : or0 x = x.
Proof. unfold or0. destruct (Z.eqb_spec x 0); congruence. Qed.

Lemma fold_left_add_sumZ (l : list Z) (a : Z) :
  fold_left Z.add l a = a + sumZ l.
Proof.
  revert a. induction l as [|x l IH]; intros a; simpl.
  - lia.
  - rewrite IH. lia.
Qed.

Lemma sql_sum_coalesce (l : list Z) : coalesce (sql_sum l) 0 = sumZ l.
Proof.
  destruct l as [|x l]; [reflexivity|].
  unfold sql_sum, coalesce. rewrite fold_left_add_sumZ. lia.
Qed.

Lemma sumZ_app (l1 l2 : list Z) : sumZ (l1 ++ l2) = sumZ l1 + sumZ l2.
Proof. induction l1 as [|x l1 IH]; simpl; lia. Qed.

Lemma existsb_false_filter {A : Type} (f : A -> bool) (l : list A) :
  existsb f l = false -> filter f l = [].
Proof.
  induction l as [|x l IH]; simpl; [reflexivity|].
  destruct (f x); simpl; [discriminate|exact IH].
Qed.

Lemma existsb_true_filter {A : Type} (f : A -> bool) (l : list A) :
  existsb f l = true -> filter f l <> [].
Proof.
  induction l as [|x l IH]; simpl; [discriminate|].
  destruct (f x); simpl; [discriminate|exact IH].
Qed.

Module dict_facts.

Lemma set_absent {V : Type} (d : dict.t V) (k : Z) (v : V) :
  ~ In k (map fst d) -> dict.set d k v = d ++ [(k, v)].
Proof.
  induction d as [|[k' v'] d IH]; simpl; intros Hn; [reflexivity|].
  destruct (Z.eqb_spec k' k) as [->|Hne].
  - exfalso. apply Hn. now left.
  - rewrite IH; [reflexivity|]. intros Hin. apply Hn. now right.
Qed.

Lemma fold_set_nodup {V : Type} (items d : list (Z * V)) :
  NoDup (map fst (d ++ items)) ->
  fold_left (fun d kv => dict.set d (fst kv) (snd kv)) items d = d ++ items.
Proof.
  revert d. induction items as [|[k v] items IH]; intros d Hnd; simpl.
  - now rewrite app_nil_r.
  - rewrite set_absent.
    + rewrite IH; rewrite <- app_assoc; [reflexivity|exact Hnd].
    + rewrite map_app in Hnd. simpl in Hnd.
      apply NoDup_remove_2 in Hnd. intros Hin. apply Hnd.
      apply in_or_app. now left.
Qed.

(** With distinct keys the comprehension keeps the items as they are. *)
Lemma of_items_nodup {V : Type} (items : list (Z * V)) :
  NoDup (map fst items) -> dict.of_items items = items.
Proof.
  intros Hnd. unfold dict.of_items, dict.empty.
  now rewrite fold_set_nodup.
Qed.

Lemma get_map_keys {V : Type} (f : Z -> V) (keys : list Z) (k : Z) :
  dict.get (map (fun k' => (k', f k')) keys) k =
  if existsb (fun k' => k' =? k) keys then Some (f k) else None.
Proof.
  induction keys as [|k' keys IH]; simpl; [reflexivity|].
  destruct (Z.eqb_spec k' k) as [->|Hne]; simpl; [reflexivity|exact IH].
Qed.

End dict_facts.

Lemma existsb_nodup_keys {A : Type} (key : A -> Z) (rows : list A) (k : Z) :
  existsb (fun k' => k' =? k) (nodup Z.eq_dec (map key rows)) =
  existsb (fun r => key r =? k) rows.
Proof.
  apply eq_true_iff_eq. rewrite !existsb_exists. split.
  - intros [k' [Hin Hk]]. apply nodup_In, in_map_iff in Hin.
    destruct Hin as [r [Hr Hin]]. exists r. split; [exact Hin|]. now rewrite Hr.
  - intros [r [Hin Hk]]. exists (key r). split; [|exact Hk].
    apply nodup_In, in_map. exact Hin.
Qed.

(** Looking a key up in the dict built from a grouped aggregate query: the
    aggregate of the key's rows, or nothing when the key has no row. *)
Lemma get_grouped {A V : Type} (key : A -> Z) (agg : list A -> V)
    (rows : list A) (k : Z) :
  dict.get
    (dict.of_items (map (fun g => (fst g, agg (snd g))) (group_by key rows))) k =
  if existsb (fun r => key r =? k) rows
  then Some (agg (filter (fun r => key r =? k) rows))
  else None.
Proof.
  unfold group_by. rewrite map_map. simpl.
  rewrite dict_facts.of_items_nodup.
  - rewrite (dict_facts.get_map_keys
               (fun k' => agg (filter (fun r => key r =? k') rows))).
    now rewrite existsb_nodup_keys.
  - rewrite map_map. simpl. rewrite map_id. apply NoDup_nodup.
Qed.

(** The dict of a month's payments holds, for each worker with a payment
    in the month, the sum of the worker's payments of the month. *)
Lemma payments_by_worker_get (db : database) (month_str : string) (wid : Z) :
  or0 (dict.get_default (payments_by_worker db month_str) wid 0) =
  month_paid db month_str wid.
Proof.
  rewrite or0_id. unfold dict.get_default, payments_by_worker, month_paid.
  rewrite (get_grouped SalaryPayment.worker_id
             (fun g => coalesce (sql_sum (map SalaryPayment.amount g)) 0)).
  destruct (existsb _ _) eqn:He; simpl.
  - apply sql_sum_coalesce.
  - now rewrite (existsb_false_filter _ _ He).
Qed.

(** ** The dashboard's salary-due list *)

Lemma py_not_false (x : option Z) :
  py_not x = false <-> exists s, x = Some s /\ s <> 0.
Proof.
  destruct x as [s|]; simpl.
  - rewrite Z.eqb_neq. split.
    + intros Hs. now exists s.
    + intros [s' [Heq Hs']]. now injection Heq as ->.
  - split; [discriminate|]. now intros [s [Heq _]].
Qed.

Lemma due_workers_loop_In (ws : list Worker.t) (db : database)
    (month_str : string) (row : DueRow.t) :
  In row (due_workers_loop ws (payments_by_worker db month_str)) <->
  exists w s,
    In w ws /\
    Worker.salary_per_month w = Some s /\ s <> 0 /\
    0 < s - month_paid db month_str (Worker.id w) /\
    row = DueRow.mk w s (month_paid db month_str (Worker.id w))
            (s - month_paid db month_str (Worker.id w)).
Proof.
  unfold due_workers_loop. rewrite in_flat_map. split.
  - intros [w [Hw Hrow]].
    destruct (py_not (Worker.salary_per_month w)) eqn:Hnot; [contradiction|].
    apply py_not_false in Hnot. destruct Hnot as [s [Hs Hs0]].
    rewrite payments_by_worker_get, Hs in Hrow. simpl in Hrow.
    rewrite or0_id in Hrow.
    destruct (Z.ltb_spec 0 (s - month_paid db month_str (Worker.id w))) as [Hlt|Hge];
      [|contradiction].
    destruct Hrow as [<-|[]]. exists w, s. repeat split; assumption.
  - intros [w [s [Hw [Hs [Hs0 [Hlt ->]]]]]]. exists w. split; [exact Hw|].
    assert (Hnot : py_not (Worker.salary_per_month w) = false)
      by (apply py_not_false; now exists s).
    rewrite Hnot, payments_by_worker_get, Hs. simpl. rewrite or0_id.
    apply Z.ltb_lt in Hlt. rewrite Hlt. now left.
Qed.

(** Which entries the dashboard's list holds. *)
Lemma dashboard_due_workers_In (db : database) (today : date) (row : DueRow.t) :
  In row (Dashboard.due_workers (dashboard db today)) <->
  exists w s,
    In w (workers db) /\ Worker.status w = "active" /\
    Worker.salary_per_month w = Some s /\ s <> 0 /\
    0 < s - month_paid db (strftime_Ym today) (Worker.id w) /\
    row = DueRow.mk w s (month_paid db (strftime_Ym today) (Worker.id w))
            (s - month_paid db (strftime_Ym today) (Worker.id w)).
Proof.
  unfold dashboard. simpl. rewrite due_workers_loop_In. split.
  - intros [w [s [Hw H]]]. apply filter_In in Hw. destruct Hw as [Hw Hact].
    apply String.eqb_eq in Hact. exists w, s. tauto.
  - intros [w [s [Hw [Hact H]]]]. exists w, s. split; [|exact H].
    apply filter_In. split; [exact Hw|]. now apply String.eqb_eq.
Qed.


(** On the example farm in December 2025 only Asha is due: 1000 - 400.
    Bilal has no salary, Chitra was paid 700 for 500 (her due amount, -200,
    is not positive), Dev has left. *)
Example dashboard_due_workers_farm :
  Dashboard.due_workers (dashboard db_farm (mkdate 2025 12 15)) =
  [DueRow.mk (Worker.mk 1 "Asha" "9000000001" (Some 1000) "active") 1000 400 600].
Proof. vm_compute. reflexivity. Qed.

(** ** The monthly cost rollup and the month ranges *)

Example strftime_Ym_example : strftime_Ym (mkdate 2025 12 15) = "2025-12".
Proof. reflexivity. Qed.

Lemma dashboard_month_salary_total (db : database) (today : date) :
  Dashboard.month_salary_total (dashboard db today) =
  salary_total_of_month db (strftime_Ym today).
Proof. unfold dashboard. simpl. apply sql_sum_coalesce. Qed.

Lemma dashboard_month_expense_total (db : database) (today : date) :
  Dashboard.month_expense_total (dashboard db today) =
  expense_total_between db (fst (expense_month_range today))
    (snd (expense_month_range today)).
Proof. unfold dashboard. simpl. apply sql_sum_coalesce. Qed.


(** On the example farm in December 2025: 1100 of salaries, 550 of
    expenses (those of the 1st and of the 31st; not those of 30 November
    and of 1 January). *)
Example dashboard_month_total_cost_farm :
  let v := dashboard db_farm (mkdate 2025 12 15) in
  (Dashboard.month_salary_total v, Dashboard.month_expense_total v,
   Dashboard.month_total_cost v) = (1100, 550, 1650).
Proof. vm_compute. reflexivity. Qed.

(** C6. In December of a year [Y] the month range of the month milk total
    and of the month expense total is [Y-12-01, (Y+1)-01-01), whatever the
    day; in any other month it runs to the first day of the next month of
    the same year. The dashboard's two month totals are taken over these
    ranges. *)
Theorem month_range_december_rollover :
  (forall (db : database) (Y d : Z),
     let today := mkdate Y 12 d in
     milk_month_range today = (mkdate Y 12 1, mkdate (Y + 1) 1 1) /\
     expense_month_range today = (mkdate Y 12 1, mkdate (Y + 1) 1 1) /\
     Dashboard.month_milk_total (dashboard db today) =
       milk_total_between db (mkdate Y 12 1) (mkdate (Y + 1) 1 1) /\
     Dashboard.month_expense_total (dashboard db today) =
       expense_total_between db (mkdate Y 12 1) (mkdate (Y + 1) 1 1)) /\
  (forall (db : database) (Y m d : Z),
     m <> 12 ->
     let today := mkdate Y m d in
     milk_month_range today = (mkdate Y m 1, mkdate Y (m + 1) 1) /\
     expense_month_range today = (mkdate Y m 1, mkdate Y (m + 1) 1) /\
     Dashboard.month_milk_total (dashboard db today) =
       milk_total_between db (mkdate Y m 1) (mkdate Y (m + 1) 1) /\
     Dashboard.month_expense_total (dashboard db today) =
       expense_total_between db (mkdate Y m 1) (mkdate Y (m + 1) 1)).
Proof.
  split.
  - intros db Y d today. repeat split.
    apply (dashboard_month_expense_total db today).
  - intros db Y m d Hm today.
    assert (Hr : expense_month_range today = (mkdate Y m 1, mkdate Y (m + 1) 1)).
    { unfold expense_month_range, next_month_first_of, replace_day1, today. simpl.
      apply Z.eqb_neq in Hm. now rewrite Hm. }
    assert (Hr' : milk_month_range today = (mkdate Y m 1, mkdate Y (m + 1) 1))
      by exact Hr.
    repeat split; try assumption.
    + unfold dashboard. rewrite Hr'. reflexivity.
    + rewrite dashboard_month_expense_total, Hr. reflexivity.
Qed.

(** The example of the specification: on 2025-12-15 the range is
    [2025-12-01, 2026-01-01). *)
Example month_range_2025_12_15 :
  milk_month_range (mkdate 2025 12 15) = (mkdate 2025 12 1, mkdate 2026 1 1) /\
  expense_month_range (mkdate 2025 12 15) = (mkdate 2025 12 1, mkdate 2026 1 1).
Proof. split; reflexivity. Qed.

(** ** The salary report *)

Lemma insert_by_perm {A : Type} (leb : A -> A -> bool) (x : A) (l : list A) :
  Permutation (insert_by leb x l) (x :: l).
Proof.
  induction l as [|y l IH]; simpl; [reflexivity|].
  destruct (leb x y); [reflexivity|].
  rewrite IH. apply perm_swap.
Qed.

Lemma order_by_perm {A : Type} (leb : A -> A -> bool) (l : list A) :
  Permutation (order_by leb l) l.
Proof.
  induction l as [|x l IH]; simpl; [reflexivity|].
  rewrite insert_by_perm. now constructor.
Qed.

Lemma sumZ_perm (l l' : list Z) : Permutation l l' -> sumZ l = sumZ l'.
Proof. induction 1; simpl; lia. Qed.

Lemma active_workers_by_name_perm (db : database) :
  Permutation (active_workers_by_name db) (active_workers_of db).
Proof. apply order_by_perm. Qed.

(** The report loop, run from any state: it appends one row per worker
    and adds the rows' amounts to the three running totals. *)
Lemma report_loop (pbw : dict.t Z) (ws : list Worker.t)
    (rows : list ReportRow.t) (te tp td : Z) :
  fold_left (report_step pbw) ws (rows, te, tp, td) =
  (rows ++ map (report_row pbw) ws,
   te + sumZ (map (fun w => ReportRow.expected (report_row pbw w)) ws),
   tp + sumZ (map (fun w => ReportRow.paid (report_row pbw w)) ws),
   td + sumZ (map (fun w => ReportRow.due (report_row pbw w)) ws)).
Proof.
  revert rows te tp td. induction ws as [|w ws IH]; intros rows te tp td; simpl.
  - now rewrite app_nil_r, !Z.add_0_r.
  - rewrite IH. rewrite <- app_assoc. simpl.
    f_equal; [f_equal; [f_equal|]|]; lia.
Qed.

(** The month a report is about: the requested one, or the current month
    when none is requested. *)
Lemma salary_report_month (db : database) (month_arg : string) (today : date) :
  SalaryReport.month (salary_report db month_arg today) =
  if String.eqb month_arg "" then strftime_Ym today else month_arg.
Proof.
  unfold salary_report. rewrite report_loop. reflexivity.
Qed.

Lemma salary_report_rows (db : database) (month_arg : string) (today : date) :
  SalaryReport.rows (salary_report db month_arg today) =
  map (report_row
         (payments_by_worker db
            (SalaryReport.month (salary_report db month_arg today))))
      (active_workers_by_name db).
Proof.
  rewrite salary_report_month. unfold salary_report.
  rewrite report_loop. reflexivity.
Qed.

Lemma report_row_paid (db : database) (month_str : string) (w : Worker.t) :
  ReportRow.paid (report_row (payments_by_worker db month_str) w) =
  month_paid db month_str (Worker.id w).
Proof. unfold report_row. simpl. apply payments_by_worker_get. Qed.

Lemma opt_or0_coalesce (x : option Z) : opt_or0 x = coalesce x 0.
Proof. destruct x as [v|]; simpl; [apply or0_id|reflexivity]. Qed.

Lemma report_row_spec (db : database) (month_str : string) (w : Worker.t) :
  report_row (payments_by_worker db month_str) w = report_row_of db month_str w.
Proof.
  unfold report_row, report_row_of.
  now rewrite payments_by_worker_get, opt_or0_coalesce.
Qed.

Lemma salary_report_rows_of (db : database) (month_arg : string) (today : date) :
  SalaryReport.rows (salary_report db month_arg today) =
  map (report_row_of db (SalaryReport.month (salary_report db month_arg today)))
      (active_workers_by_name db).
Proof.
  rewrite salary_report_rows. apply map_ext. intros w. apply report_row_spec.
Qed.

Lemma salary_report_totals (db : database) (month_arg : string) (today : date) :
  let r := salary_report db month_arg today in
  SalaryReport.total_expected r = sumZ (map ReportRow.expected (SalaryReport.rows r)) /\
  SalaryReport.total_paid r = sumZ (map ReportRow.paid (SalaryReport.rows r)) /\
  SalaryReport.total_due r = sumZ (map ReportRow.due (SalaryReport.rows r)).
Proof.
  unfold salary_report. rewrite report_loop. simpl.
  rewrite !map_map. repeat split.
Qed.

(** C3. The salary report of a month has exactly one row per active
    worker; the row of a worker gives the expected salary (0 when none is
    set, with status "Salary not set"), the amount paid for the month and
    the due amount floored at 0; the three totals are the sums of the rows'
    expected, paid and due amounts. *)
Theorem salary_report_rows_and_totals (db : database) (month_arg : string) (today : date) :
  let r := salary_report db month_arg today in
  SalaryReport.rows r =
    map (report_row_of db (SalaryReport.month r)) (active_workers_by_name db) /\
  Permutation (map ReportRow.worker (SalaryReport.rows r)) (active_workers_of db) /\
  (forall row, In row (SalaryReport.rows r) ->
     Worker.salary_per_month (ReportRow.worker row) = None ->
     ReportRow.status row = "Salary not set" /\ ReportRow.expected row = 0) /\
  (forall row, In row (SalaryReport.rows r) ->
     ReportRow.due row = Z.max (ReportRow.expected row - ReportRow.paid row) 0) /\
  SalaryReport.total_expected r = sumZ (map ReportRow.expected (SalaryReport.rows r)) /\
  SalaryReport.total_paid r = sumZ (map ReportRow.paid (SalaryReport.rows r)) /\
  SalaryReport.total_due r = sumZ (map ReportRow.due (SalaryReport.rows r)).
Proof.
  intros r.
  pose proof (salary_report_rows_of db month_arg today) as Hrows.
  fold r in Hrows.
  split; [exact Hrows|]. split; [|split; [|split]].
  - rewrite Hrows, map_map. simpl. rewrite map_id.
    apply active_workers_by_name_perm.
  - intros row Hin Hnone. rewrite Hrows in Hin. apply in_map_iff in Hin.
    destruct Hin as [w [<- _]]. simpl in *. now rewrite Hnone.
  - intros row Hin. rewrite Hrows in Hin. apply in_map_iff in Hin.
    destruct Hin as [w [<- _]]. reflexivity.
  - apply salary_report_totals.
Qed.

(** The report of December 2025 on the example farm. *)
Example salary_report_farm :
  let r := salary_report db_farm "2025-12" (mkdate 2026 1 10) in
  map (fun row => (Worker.name (ReportRow.worker row), ReportRow.expected row,
                   ReportRow.paid row, ReportRow.due row, ReportRow.status row))
      (SalaryReport.rows r) =
    [("Asha", 1000, 400, 600, "Partially Paid");
     ("Bilal", 0, 0, 0, "Salary not set");
     ("Chitra", 500, 700, 0, "Paid")] /\
  (SalaryReport.total_expected r, SalaryReport.total_paid r, SalaryReport.total_due r)
    = (1500, 1100, 600).
Proof. vm_compute. split; reflexivity. Qed.

(** *** The status of a row *)

Lemma salary_status_some (s expected paid : Z) :
  salary_status (Some s) expected paid =
  if expected =? 0 then "Salary set as 0"
  else if paid =? 0 then "Not Paid"
  else if paid <? expected then "Partially Paid"
  else "Paid".
Proof. reflexivity. Qed.

Ltac status_cases :=
  repeat match goal with
         | |- context [Z.eqb ?a ?b] => destruct (Z.eqb_spec a b)
         | |- context [Z.ltb ?a ?b] => destruct (Z.ltb_spec a b)
         | |- context [Z.leb ?a ?b] => destruct (Z.leb_spec a b)
         end.

Ltac status_iff :=
  split;
  [ intros Hst; try discriminate Hst;
    intuition (try discriminate; try congruence; try lia)
  | intros Hc; try reflexivity; exfalso;
    intuition (try discriminate; try congruence; try lia) ].

(** C2, as the code has it. The status is a total function of the salary,
    the expected amount and the amount paid, with five cases tried in
    order: no salary set; expected 0; paid 0; paid below expected
    ("Partially Paid", whatever the sign of the paid amount); and otherwise
    "Paid". The five cases exclude each other and every value gets one of
    the five statuses. For a paid amount that is not negative the fourth
    case is [0 < paid < expected], and the function is the one the
    specification lists. Every row of the report carries the status this
    function gives. *)
Theorem salary_status_five_cases :
  (forall (salary_per_month : option Z) (expected paid : Z),
     let status := salary_status salary_per_month expected paid in
     (status = "Salary not set" <-> salary_per_month = None) /\
     (status = "Salary set as 0" <-> salary_per_month <> None /\ expected = 0) /\
     (status = "Not Paid" <->
        salary_per_month <> None /\ expected <> 0 /\ paid = 0) /\
     (status = "Partially Paid" <->
        salary_per_month <> None /\ expected <> 0 /\ paid <> 0 /\ paid < expected) /\
     (status = "Paid" <->
        salary_per_month <> None /\ expected <> 0 /\ paid <> 0 /\ paid >= expected) /\
     (0 <= paid -> stated_status salary_per_month expected paid = Some status)) /\
  (forall (db : database) (month_arg : string) (today : date) (row : ReportRow.t),
     In row (SalaryReport.rows (salary_report db month_arg today)) ->
     ReportRow.status row =
       salary_status (Worker.salary_per_month (ReportRow.worker row))
         (ReportRow.expected row) (ReportRow.paid row)).
Proof.
  split.
  - intros [s|] expected paid status; unfold status, stated_status; clear status.
    + rewrite salary_status_some.
      status_cases; simpl;
        (refine (conj _ (conj _ (conj _ (conj _ (conj _ _)))));
         [status_iff .. | intros Hp; try reflexivity; lia]).
    + simpl.
      refine (conj _ (conj _ (conj _ (conj _ (conj _ _)))));
        [status_iff .. | reflexivity].
  - intros db month_arg today row Hin.
    rewrite salary_report_rows_of in Hin. apply in_map_iff in Hin.
    destruct Hin as [w [<- _]]. reflexivity.
Qed.

(** C2 as stated fails for a negative paid amount: with a salary of 1000
    and -500 paid the report says "Partially Paid", while none of the five
    cases as listed applies ([0 < paid < expected] and [paid >= expected]
    are both false). *)
Lemma salary_status_negative_paid :
  map (fun row => (ReportRow.expected row, ReportRow.paid row, ReportRow.status row))
      (SalaryReport.rows (salary_report db_negative_payment "2025-12" (mkdate 2025 12 15)))
    = [(1000, -500, "Partially Paid")] /\
  salary_status (Some 1000) 1000 (-500) = "Partially Paid" /\
  stated_status (Some 1000) 1000 (-500) = None /\
  ~ (0 < -500 < 1000) /\ ~ (-500 >= 1000).
Proof.
  split; [vm_compute; reflexivity|].
  split; [reflexivity|].
  split; [reflexivity|].
  split; lia.
Qed.

(** ** Registration *)

Section RegisterFacts.

Variable strip : string -> string.
Variable lower : string -> string.
Variable isalpha isdigit : ascii -> bool.
Variable generate_password_hash : string -> string.

Let reg := register strip lower isalpha isdigit generate_password_hash.
Let reg_all := register_all strip lower isalpha isdigit generate_password_hash.

(** A request either leaves the users table as it is, or appends one
    user, flashes the success message and redirects to the login page; the
    role of the new user is decided by whether the table was empty. *)
Lemma register_outcome (db : database) (request : Request.t) :
  (fst (fst (reg db request)) = db /\
   snd (fst (reg db request)) <> account_created) \/
  (exists u : User.t,
     users (fst (fst (reg db request))) = users db ++ [u] /\
     snd (fst (reg db request)) = account_created /\
     snd (reg db request) = Redirect "login" /\
     User.role u = if (List.length (users db) =? 0)%nat then "admin" else "user").
Proof.
  unfold reg, register, account_created.
  destruct (negb (py_not (Request.session_user_id request)));
    [left; split; [reflexivity|discriminate]|].
  destruct (String.eqb (Request.method request) "POST");
    [|left; split; [reflexivity|discriminate]].
  destruct (is_empty _ || is_empty _ || is_empty _ || is_empty _);
    [left; split; [reflexivity|discriminate]|].
  destruct (negb (String.eqb _ _));
    [left; split; [reflexivity|discriminate]|].
  destruct (validate_password isalpha isdigit _) as [ok msg].
  destruct (negb ok); [left; split; [reflexivity|simpl; congruence]|].
  destruct (existsb _ (users db));
    [left; split; [reflexivity|discriminate]|].
  destruct (existsb _ (users db));
    [left; split; [reflexivity|discriminate]|].
  destruct (existsb _ (users db));
    [left; split; [reflexivity|discriminate]|].
  right. eexists. simpl. repeat split.
Qed.

Lemma length_eqb_0 {A : Type} (l : list A) :
  (List.length l =? 0)%nat = true <-> l = [].
Proof.
  destruct l; simpl; split; intros H; try reflexivity; discriminate.
Qed.

Lemma register_all_app (db : database) (requests : list Request.t) (r : Request.t) :
  reg_all db (requests ++ [r]) =
  fst (fst (reg (reg_all db requests) r)).
Proof.
  unfold reg_all, register_all. rewrite fold_left_app. reflexivity.
Qed.

(** C9. A registration that creates an account gives it the role "admin"
    exactly when the users table is empty at that moment, and the role
    "user" otherwise; so in any run of registrations the first account
    created in an empty table is the admin and every account created after
    it is a "user". *)
Theorem register_first_user_admin :
  (forall (db : database) (request : Request.t),
     (users (fst (fst (reg db request))) = users db /\
      snd (fst (reg db request)) <> account_created) \/
     (exists u : User.t,
        users (fst (fst (reg db request))) = users db ++ [u] /\
        snd (fst (reg db request)) = account_created /\
        (User.role u = "admin" <-> users db = []) /\
        (User.role u = "user" <-> users db <> []))) /\
  (forall (db : database) (requests : list Request.t),
     exists created : list User.t,
       users (reg_all db requests) = users db ++ created /\
       (users db <> [] -> Forall (fun u => User.role u = "user") created) /\
       (users db = [] ->
        match created with
        | [] => True
        | first :: later =>
            User.role first = "admin" /\
            Forall (fun u => User.role u = "user") later
        end)).
Proof.
  split.
  - intros db request.
    destruct (register_outcome db request) as [[Hdb Hfl]|[u [Hu [Hfl [_ Hrole]]]]].
    + left. split; [now rewrite Hdb|exact Hfl].
    + right. exists u. split; [exact Hu|]. split; [exact Hfl|].
      rewrite Hrole. destruct (users db) as [|u0 us]; simpl.
      * split; split; intros H; try reflexivity; try discriminate. now elim H.
      * split; split; intros H; try reflexivity; discriminate.
  - intros db requests. induction requests as [|r requests IH] using rev_ind.
    + exists []. simpl. rewrite app_nil_r. repeat split; constructor.
    + destruct IH as [created [Hc [Hne He]]].
      rewrite register_all_app.
      destruct (register_outcome (reg_all db requests) r)
        as [[Hdb _]|[u [Hu [_ [_ Hrole]]]]].
      * exists created. rewrite Hdb. auto.
      * exists (created ++ [u]). rewrite Hu, Hc, app_assoc.
        split; [reflexivity|].
        rewrite Hc in Hrole. split.
        -- intros Hdbne. apply Forall_app. split; [auto|].
           constructor; [|constructor]. rewrite Hrole.
           destruct (users db); [now elim Hdbne|reflexivity].
        -- intros Hdbe. specialize (He Hdbe). rewrite Hdbe in Hrole. simpl in Hrole.
           destruct created as [|first later]; simpl.
           ++ split; [exact Hrole|constructor].
           ++ destruct He as [Hf Hl]. split; [exact Hf|].
              apply Forall_app. split; [exact Hl|].
              constructor; [|constructor]. exact Hrole.
Qed.

End RegisterFacts.

(** Two registrations in an empty database: the first account is the
    admin, the second a user. *)
Example register_two_accounts :
  map (fun u => (User.id u, User.username u, User.role u))
      (users (register_all (fun s => s) (fun s => s) ascii_isalpha ascii_isdigit
                (fun s => s) db_empty
                [registration_of "asha" "asha@example.org" "9000000001" "milk2025x";
                 registration_of "bilal" "bilal@example.org" "9000000002" "ghee2025y"]))
  = [(1, "asha", "admin"); (2, "bilal", "user")].
Proof. vm_compute. reflexivity. Qed.


(** ** Binary64 arithmetic

    Facts about the float operations the handlers use, from the
    specification of the primitive floats. *)

Module float_facts.

Local Open Scope float_scope.


(** The floats that compare equal to zero are the two zeros. *)
Lemma eqb_zero (x : float) : (x =? 0) = true -> x = 0 \/ x = -0.
Proof.
  rewrite eqb_spec. intros H.
  rewrite <- (SF2Prim_Prim2SF x).
  destruct (Prim2SF x) as [[|]|[|]| |[|] m e]; simpl in H; try discriminate.
  - right. reflexivity.
  - left. reflexivity.
Qed.

Lemma not_zero_spec (x : float) :
  (x =? 0) = false ->
  match Prim2SF x with S754_zero _ => False | _ => True end.
Proof.
  rewrite eqb_spec.
  destruct (Prim2SF x) as [[|]|[|]| |[|] m e]; simpl; intros H;
    try exact I; discriminate.
Qed.

(** Adding a zero to a float that is not a zero leaves it as it is. *)
Lemma add_zero_l (z x : float) :
  z = 0 \/ z = -0 -> (x =? 0) = false -> z + x = x.
Proof.
  intros Hz Hx. apply not_zero_spec in Hx.
  apply Prim2SF_inj. rewrite add_spec.
  destruct Hz as [-> | ->].
  - change (Prim2SF 0) with (S754_zero false).
    destruct (Prim2SF x) as [s|s| |s m e]; try reflexivity. contradiction.
  - change (Prim2SF (-0)) with (S754_zero true).
    destruct (Prim2SF x) as [s|s| |s m e]; try reflexivity. contradiction.
Qed.

Lemma add_zero_r (z x : float) :
  z = 0 \/ z = -0 -> (x =? 0) = false -> x + z = x.
Proof.
  intros Hz Hx. apply not_zero_spec in Hx.
  apply Prim2SF_inj. rewrite add_spec.
  destruct Hz as [-> | ->].
  - change (Prim2SF 0) with (S754_zero false).
    destruct (Prim2SF x) as [s|[|]| |s m e]; try reflexivity. contradiction.
  - change (Prim2SF (-0)) with (S754_zero true).
    destruct (Prim2SF x) as [s|[|]| |s m e]; try reflexivity. contradiction.
Qed.










End float_facts.

(** ** The litres of a milk record *)

Lemma float_or0_some (x : float) :
  (PrimFloat.eqb x 0%float = false /\ float_or0 (Some x) = x) \/
  ((x = 0%float \/ x = (-0)%float) /\ float_or0 (Some x) = 0%float).
Proof.
  unfold float_or0. destruct (PrimFloat.eqb x 0%float) eqn:Hx.
  - right. split; [now apply float_facts.eqb_zero|reflexivity].
  - left. split; reflexivity.
Qed.

Lemma float_or0_add (m e : option float) :
  same_number (float_or0 m + float_or0 e)%float (coalesce m 0 + coalesce e 0)%float.
Proof.
  destruct m as [m|], e as [e|]; simpl coalesce.
  - destruct (float_or0_some m) as [[Hm ->]|[Hm ->]],
             (float_or0_some e) as [[He ->]|[He ->]].
    + now left.
    + left. rewrite !float_facts.add_zero_r; auto.
    + left. rewrite !float_facts.add_zero_l; auto.
    + right. destruct Hm as [-> | ->], He as [-> | ->]; split; reflexivity.
  - destruct (float_or0_some m) as [[Hm ->]|[Hm ->]].
    + now left.
    + left. destruct Hm as [-> | ->]; reflexivity.
  - destruct (float_or0_some e) as [[He ->]|[He ->]].
    + now left.
    + left. destruct He as [-> | ->]; reflexivity.
  - now left.
Qed.

(** C7. The total of a milk record is the morning reading plus the evening
    reading, an absent reading counting as 0 (the same number: a sum of
    zeros may differ in the sign of the zero). With no morning reading and
    5.0 in the evening the total is 5.0; with no reading at all it is 0. *)
Theorem total_litres_absent_as_zero :
  (forall r : MilkRecord.t,
     same_number (MilkRecord.total_litres r)
       (coalesce (MilkRecord.morning_litres r) 0 +
        coalesce (MilkRecord.evening_litres r) 0)%float) /\
  (forall (id buffalo_id : Z) (d : date),
     MilkRecord.total_litres (MilkRecord.mk id buffalo_id d None (Some 5.0%float))
     = 5.0%float) /\
  (forall (id buffalo_id : Z) (d : date),
     MilkRecord.total_litres (MilkRecord.mk id buffalo_id d None None) = 0%float).
Proof.
  split; [|split].
  - intros r. unfold MilkRecord.total_litres. apply float_or0_add.
  - reflexivity.
  - reflexivity.
Qed.

(** ** The low-milk alerts *)




Lemma sql_avg_map {A : Type} (f : A -> float) (l : list A) :
  sql_avg (map f l) =
  match l with
  | [] => None
  | _ => Some (fsum (map f l) / float_of_int (Z.of_nat (List.length l)))%float
  end.
Proof.
  destruct l as [|x l]; [reflexivity|].
  unfold sql_avg. rewrite length_map. reflexivity.
Qed.

(** What the dict [avg_by_buffalo] of the handler holds for an animal: the
    mean of its records of the window, and no entry without such a record. *)
Lemma avg_by_buffalo_get (db : database) (today : date) (buffalo_id : Z) :
  dict.get (avg_by_buffalo db (sub_days today 7) today) buffalo_id =
  option_map Some (week_average db today buffalo_id).
Proof.
  unfold avg_by_buffalo, week_average.
  rewrite (get_grouped MilkRecord.buffalo_id
             (fun g => sql_avg (map sql_total_litres g))).
  fold (prior_records db today buffalo_id).
  destruct (existsb _ _) eqn:He.
  - apply existsb_true_filter in He. fold (prior_records db today buffalo_id) in He.
    rewrite sql_avg_map.
    destruct (prior_records db today buffalo_id); [contradiction|reflexivity].
  - apply existsb_false_filter in He. fold (prior_records db today buffalo_id) in He.
    now rewrite He.
Qed.

Lemma low_milk_alerts_of_spec (db : database) (today : date) :
  low_milk_alerts_of db today =
  flat_map (fun r => option_list (low_yield_alert db today r))
           (todays_records db today).
Proof.
  unfold low_milk_alerts_of, todays_records. apply flat_map_ext. intros r.
  rewrite avg_by_buffalo_get. unfold low_yield_alert, MilkRecord.total_litres.
  destruct (week_average db today (MilkRecord.buffalo_id r)) as [avg|]; simpl;
    [|reflexivity].
  now destruct (_ <? _)%float.
Qed.


(** The example of the specification: with seven days of 10 litres before
    today, 6.9 litres today give an alert and 7.0 litres give none. *)
Example low_milk_alert_at_6_9 :
  Dashboard.low_milk_alerts
    (dashboard (db_ten_litres_a_day 6.9%float) (mkdate 2025 12 15)) =
  [Alert.mk (Some (Buffalo.mk 1 "B-01" "buffalo" "active")) 6.9%float 10.0%float].
Proof. vm_compute. reflexivity. Qed.

Example no_low_milk_alert_at_7_0 :
  Dashboard.low_milk_alerts
    (dashboard (db_ten_litres_a_day 7.0%float) (mkdate 2025 12 15)) = [].
Proof. vm_compute. reflexivity. Qed.


(** Two records in the window, of 8 and 12 litres: the average is 10, the
    sum over the two records and not over seven days. *)
Example week_average_two_days :
  week_average db_two_days_recorded (mkdate 2025 12 15) 1 = Some 10.0%float.
Proof. vm_compute. reflexivity. Qed.

(** ** The order of dates *)

Lemma date_leb_spec (a b : date) :
  date_leb a b = true <->
  year a < year b \/
  (year a = year b /\
   (month a < month b \/ (month a = month b /\ day a <= day b))).
Proof.
  unfold date_leb, date_compare.
  destruct (Z.compare_spec (year a) (year b));
    destruct (Z.compare_spec (month a) (month b));
    destruct (Z.compare_spec (day a) (day b));
    split; intros; try reflexivity; try discriminate; lia.
Qed.

Lemma date_ltb_spec (a b : date) :
  date_ltb a b = true <->
  year a < year b \/
  (year a = year b /\
   (month a < month b \/ (month a = month b /\ day a < day b))).
Proof.
  unfold date_ltb, date_compare.
  destruct (Z.compare_spec (year a) (year b));
    destruct (Z.compare_spec (month a) (month b));
    destruct (Z.compare_spec (day a) (day b));
    split; intros; try reflexivity; try discriminate; lia.
Qed.

Lemma date_leb_refl (a : date) : date_leb a a = true.
Proof. apply date_leb_spec. lia. Qed.

Lemma date_leb_trans (a b c : date) :
  date_leb a b = true -> date_leb b c = true -> date_leb a c = true.
Proof. rewrite !date_leb_spec. lia. Qed.

Lemma date_leb_total (a b : date) : date_leb a b = true \/ date_leb b a = true.
Proof. rewrite !date_leb_spec. lia. Qed.


(** ** The per-animal milk summary *)








(** Two records, of 8 and 12 litres, on two dates. *)
Example buffalo_milk_summary_two_days :
  match buffalo_milk_summary db_two_days_recorded 1 with
  | Rendered v =>
      (MilkSummary.first_date v, MilkSummary.last_date v, MilkSummary.total_litres v,
       MilkSummary.days_count v, MilkSummary.avg_per_day v) =
      (Some (mkdate 2025 12 9), Some (mkdate 2025 12 13), 20.0%float, 2, 10.0%float)
  | _ => False
  end.
Proof. vm_compute. reflexivity. Qed.

(** An animal without any record: the summary is the one of the
    specification's example, and nothing is raised. *)
Example buffalo_milk_summary_no_record :
  buffalo_milk_summary
    (mkdb [] [Buffalo.mk 1 "B-01" "buffalo" "active"] [] [] [] []) 1 =
  Rendered (MilkSummary.mk (Buffalo.mk 1 "B-01" "buffalo" "active")
              None None 0%float 0 0%float []).
Proof. reflexivity. Qed.

(** ** The look-back window and the month range, day by day *)

Lemma days_in_month_ge (y m : Z) : 28 <= days_in_month y m.
Proof.
  unfold days_in_month.
  destruct (m =? 2); [destruct (is_leap y); lia|].
  destruct ((m =? 4) || (m =? 6) || (m =? 9) || (m =? 11)); lia.
Qed.

Lemma days_in_month_december (y : Z) : days_in_month y 12 = 31.
Proof. reflexivity. Qed.

Lemma valid_date_spec (d : date) :
  valid_date d = true <->
  1 <= month d <= 12 /\ 1 <= day d <= days_in_month (year d) (month d).
Proof.
  unfold valid_date. rewrite !andb_true_iff, !Z.leb_le. tauto.
Qed.

(** The three cases of [prev_day]. *)
Lemma prev_day_cases (d : date) :
  (1 < day d /\ prev_day d = mkdate (year d) (month d) (day d - 1)) \/
  (day d <= 1 /\ 1 < month d /\
   prev_day d = mkdate (year d) (month d - 1) (days_in_month (year d) (month d - 1))) \/
  (day d <= 1 /\ month d <= 1 /\ prev_day d = mkdate (year d - 1) 12 31).
Proof.
  unfold prev_day.
  destruct (Z.ltb_spec 1 (day d)); [now left|].
  destruct (Z.ltb_spec 1 (month d)); [right; left|right; right]; auto.
Qed.

Lemma prev_day_valid (d : date) : valid_date d = true -> valid_date (prev_day d) = true.
Proof.
  rewrite !valid_date_spec. intros Hv.
  destruct (prev_day_cases d) as [[H1 ->]|[[H1 [H2 ->]]|[H1 [H2 ->]]]]; simpl.
  - lia.
  - pose proof (days_in_month_ge (year d) (month d - 1)). lia.
  - rewrite days_in_month_december. lia.
Qed.

Lemma prev_day_lt (d : date) : valid_date d = true -> date_ltb (prev_day d) d = true.
Proof.
  rewrite valid_date_spec, date_ltb_spec. intros Hv.
  destruct (prev_day_cases d) as [[H1 ->]|[[H1 [H2 ->]]|[H1 [H2 ->]]]]; simpl; lia.
Qed.

(** No calendar date lies strictly between [prev_day d] and [d]. *)
Lemma prev_day_is_predecessor (d d' : date) :
  valid_date d = true -> valid_date d' = true ->
  date_ltb d' d = true -> date_leb d' (prev_day d) = true.
Proof.
  rewrite !valid_date_spec, date_ltb_spec, date_leb_spec. intros Hv Hv' Hlt.
  destruct (prev_day_cases d) as [[H1 ->]|[[H1 [H2 ->]]|[H1 [H2 ->]]]]; simpl.
  - lia.
  - destruct (Z.eq_dec (year d') (year d)) as [Hy|Hy]; [|lia].
    destruct (Z.eq_dec (month d') (month d - 1)) as [Hm|Hm]; [|lia].
    rewrite Hy, Hm in Hv'. lia.
  - destruct (Z.eq_dec (year d') (year d - 1)) as [Hy|Hy]; [|lia].
    destruct (Z.eq_dec (month d') 12) as [Hm|Hm]; [|lia].
    rewrite Hm, days_in_month_december in Hv'. lia.
Qed.

Lemma date_leb_cases (a b : date) :
  date_leb a b = true -> a = b \/ date_ltb a b = true.
Proof.
  rewrite date_leb_spec, date_ltb_spec. destruct a as [y m d], b as [y' m' d'].
  simpl. intros H.
  destruct (Z.eq_dec y y') as [->|]; [|right; lia].
  destruct (Z.eq_dec m m') as [->|]; [|right; lia].
  destruct (Z.eq_dec d d') as [->|]; [now left|right; lia].
Qed.

Lemma date_ltb_leb (a b : date) : date_ltb a b = true -> date_leb a b = true.
Proof. rewrite date_leb_spec, date_ltb_spec. lia. Qed.

Lemma date_ltb_irrefl (a : date) : date_ltb a a = false.
Proof.
  destruct (date_ltb a a) eqn:H; [|reflexivity].
  apply date_ltb_spec in H. lia.
Qed.

Lemma date_leb_ltb_trans (a b c : date) :
  date_leb a b = true -> date_ltb b c = true -> date_ltb a c = true.
Proof. rewrite date_leb_spec, !date_ltb_spec. lia. Qed.

Lemma sub_days_valid (n : nat) (d : date) :
  valid_date d = true -> valid_date (sub_days d n) = true.
Proof.
  revert d. induction n as [|n IH]; intros d Hv; simpl; [exact Hv|].
  apply IH, prev_day_valid, Hv.
Qed.

Lemma sub_days_le (n : nat) (d : date) :
  valid_date d = true -> date_leb (sub_days d n) d = true.
Proof.
  revert d. induction n as [|n IH]; intros d Hv; simpl; [apply date_leb_refl|].
  apply date_leb_trans with (prev_day d).
  - apply IH, prev_day_valid, Hv.
  - apply date_ltb_leb, prev_day_lt, Hv.
Qed.

(** The dates from [n] days before [d] up to the day before [d] are the
    dates 1, 2, ..., [n] days before [d]. *)
Lemma in_range_sub_days (n : nat) (d d' : date) :
  valid_date d = true -> valid_date d' = true ->
  (in_range (sub_days d n) d d' = true <->
   exists k : nat, (1 <= k <= n)%nat /\ d' = sub_days d k).
Proof.
  unfold in_range. revert d. induction n as [|n IH]; intros d Hv Hv'.
  - simpl. split.
    + intros H. apply andb_prop in H. destruct H as [H1 H2].
      pose proof (date_leb_ltb_trans _ _ _ H1 H2) as Hc.
      rewrite date_ltb_irrefl in Hc. discriminate.
    + intros [k [Hk _]]. lia.
  - simpl sub_days. pose proof (prev_day_valid d Hv) as Hpv. split.
    + intros H. apply andb_prop in H. destruct H as [H1 H2].
      pose proof (prev_day_is_predecessor d d' Hv Hv' H2) as Hle.
      destruct (date_leb_cases _ _ Hle) as [->|Hlt].
      * exists 1%nat. split; [lia|reflexivity].
      * destruct (proj1 (IH (prev_day d) Hpv Hv')) as [k [Hk Hd']].
        { now rewrite H1, Hlt. }
        exists (S k). split; [lia|exact Hd'].
    + intros [k [Hk ->]]. destruct k as [|k]; [lia|]. simpl sub_days.
      destruct k as [|k].
      * simpl. rewrite (sub_days_le n _ Hpv), (prev_day_lt d Hv). reflexivity.
      * assert (Hin : date_leb (sub_days (prev_day d) n) (sub_days (prev_day d) (S k))
                      && date_ltb (sub_days (prev_day d) (S k)) (prev_day d) = true).
        { apply (IH (prev_day d) Hpv (sub_days_valid (S k) _ Hpv)).
          exists (S k). split; [lia|reflexivity]. }
        apply andb_prop in Hin. destruct Hin as [H1 H2].
        rewrite H1. simpl.
        apply date_leb_ltb_trans with (prev_day d);
          [now apply date_ltb_leb|now apply prev_day_lt].
Qed.

(** The window of the low-yield detector holds exactly the seven calendar
    days before today: a record dated [d] is in it exactly when [d] is 1,
    2, ..., or 7 days before [today]. *)
Theorem window_is_seven_days (db : database) (today : date) (r : MilkRecord.t) :
  valid_date today = true -> valid_date (MilkRecord.date r) = true ->
  (In r (window_records db (sub_days today 7) today) <->
   In r (milk_records db) /\
   exists k : nat, (1 <= k <= 7)%nat /\ MilkRecord.date r = sub_days today k).
Proof.
  intros Hv Hr. unfold window_records.
  rewrite filter_In, (in_range_sub_days 7 today _ Hv Hr). reflexivity.
Qed.

Lemma window_is_seven_days_witness :
  In (MilkRecord.mk 1 1 (mkdate 2025 12 9) (Some 8.0%float) None)
     (window_records db_two_days_recorded (sub_days (mkdate 2025 12 15) 7)
        (mkdate 2025 12 15)) <->
  In (MilkRecord.mk 1 1 (mkdate 2025 12 9) (Some 8.0%float) None)
     (milk_records db_two_days_recorded) /\
  exists k : nat, (1 <= k <= 7)%nat /\
    MilkRecord.date (MilkRecord.mk 1 1 (mkdate 2025 12 9) (Some 8.0%float) None)
    = sub_days (mkdate 2025 12 15) k.
Proof.
  apply (window_is_seven_days db_two_days_recorded (mkdate 2025 12 15)
           (MilkRecord.mk 1 1 (mkdate 2025 12 9) (Some 8.0%float) None));
    reflexivity.
Defined.

(** Seven days before the first of March 2024 (a leap year) is the 23rd of
    February; before the first of March 2025 it is the 22nd. *)
Example sub_days_examples :
  sub_days (mkdate 2024 3 1) 7 = mkdate 2024 2 23 /\
  sub_days (mkdate 2025 3 1) 7 = mkdate 2025 2 22 /\
  sub_days (mkdate 2026 1 3) 7 = mkdate 2025 12 27.
Proof. repeat split. Qed.

(** The month range of the dashboard holds exactly the dates of today's
    month and year. *)
Theorem month_range_is_the_month (today d : date) :
  valid_date today = true -> valid_date d = true ->
  (in_range (fst (milk_month_range today)) (snd (milk_month_range today)) d = true <->
   year d = year today /\ month d = month today) /\
  (in_range (fst (expense_month_range today)) (snd (expense_month_range today)) d = true <->
   year d = year today /\ month d = month today).
Proof.
  rewrite !valid_date_spec. intros Hv Hd.
  assert (H : in_range (replace_day1 today) (next_month_first_of (replace_day1 today)) d
              = true <-> year d = year today /\ month d = month today).
  { unfold in_range, next_month_first_of, replace_day1. simpl.
    rewrite andb_true_iff, date_leb_spec.
    destruct (Z.eqb_spec (month today) 12) as [Hm|Hm];
      rewrite date_ltb_spec; simpl; lia. }
  split; exact H.
Qed.

Lemma month_range_is_the_month_witness :
  (in_range (fst (milk_month_range (mkdate 2025 12 15)))
     (snd (milk_month_range (mkdate 2025 12 15))) (mkdate 2025 12 31) = true <->
   year (mkdate 2025 12 31) = year (mkdate 2025 12 15) /\
   month (mkdate 2025 12 31) = month (mkdate 2025 12 15)) /\
  (in_range (fst (expense_month_range (mkdate 2025 12 15)))
     (snd (expense_month_range (mkdate 2025 12 15))) (mkdate 2025 12 31) = true <->
   year (mkdate 2025 12 31) = year (mkdate 2025 12 15) /\
   month (mkdate 2025 12 31) = month (mkdate 2025 12 15)).
Proof.
  apply (month_range_is_the_month (mkdate 2025 12 15) (mkdate 2025 12 31));
    reflexivity.
Defined.

(** ** The order of the report rows and of the summary's records *)

Section OrderBy.

Variable A : Type.
Variable leb : A -> A -> bool.
Hypothesis leb_total : forall a b, leb a b = true \/ leb b a = true.

Lemma insert_by_hd (x y : A) (l : list A) :
  leb y x = true ->
  HdRel (fun a b => leb a b = true) y l ->
  HdRel (fun a b => leb a b = true) y (insert_by leb x l).
Proof.
  intros Hyx Hhd. destruct l as [|z l]; simpl.
  - now constructor.
  - destruct (leb x z); constructor; [exact Hyx|].
    now inversion Hhd.
Qed.

Lemma insert_by_sorted (x : A) (l : list A) :
  Sorted (fun a b => leb a b = true) l ->
  Sorted (fun a b => leb a b = true) (insert_by leb x l).
Proof.
  induction 1 as [|y l Hs IH Hhd]; simpl.
  - repeat constructor.
  - destruct (leb x y) eqn:Hxy.
    + constructor; [now constructor|now constructor].
    + constructor; [exact IH|].
      apply insert_by_hd; [|exact Hhd].
      destruct (leb_total x y) as [H|H]; [congruence|exact H].
Qed.

Lemma order_by_sorted (l : list A) :
  Sorted (fun a b => leb a b = true) (order_by leb l).
Proof.
  induction l as [|x l IH]; simpl; [constructor|].
  now apply insert_by_sorted.
Qed.

End OrderBy.

(** The rows of the salary report follow the workers' names in ascending
    order. *)
Theorem salary_report_rows_by_name (db : database) (month_arg : string) (today : date) :
  Sorted (fun a b => String.leb (Worker.name a) (Worker.name b) = true)
    (map ReportRow.worker (SalaryReport.rows (salary_report db month_arg today))).
Proof.
  rewrite salary_report_rows_of, map_map. simpl. rewrite map_id.
  apply order_by_sorted. intros a b. apply String.leb_total.
Qed.

(** The records the milk summary lists are the animal's records, in
    ascending order of their dates. *)
Theorem buffalo_milk_summary_records (db : database) (buffalo_id : Z) :
  match buffalo_milk_summary db buffalo_id with
  | Rendered v =>
      Permutation (MilkSummary.records v) (records_of db buffalo_id) /\
      Sorted (fun a b => date_leb (MilkRecord.date a) (MilkRecord.date b) = true)
        (MilkSummary.records v)
  | _ => True
  end.
Proof.
  unfold buffalo_milk_summary. fold (records_of db buffalo_id).
  destruct (find _ (buffaloes db)); [|exact I].
  match goal with
  | |- context [match ?avg with Some _ => _ | None => _ end] => destruct avg
  end; [|exact I].
  simpl. split; [apply order_by_perm|].
  apply order_by_sorted. intros a b. apply date_leb_total.
Qed.

(** * Further properties of the handlers *)

(** ** Password rules and the rows registration writes *)

Section RegistrationRows.

Variable strip : string -> string.
Variable lower : string -> string.
Variable isalpha isdigit : ascii -> bool.
Variable generate_password_hash : string -> string.

Let reg := register strip lower isalpha isdigit generate_password_hash.
Let reg_all := register_all strip lower isalpha isdigit generate_password_hash.


Lemma existsb_false_all {A : Type} (f : A -> bool) (l : list A) :
  existsb f l = false -> forall x, In x l -> f x = false.
Proof.
  intros H x Hin. destruct (f x) eqn:Hf; [|reflexivity].
  assert (existsb f l = true) by (apply existsb_exists; now exists x).
  congruence.
Qed.

(** The two ways a request to "/register" can end: nothing is written, or
    one row is appended to the users table, with the next free id and with
    a username, an email and a mobile that no row has yet. *)
Lemma register_row (db : database) (request : Request.t) :
  fst (fst (reg db request)) = db \/
  exists u : User.t,
    fst (fst (reg db request)) =
      mkdb (users db ++ [u]) (buffaloes db) (workers db)
        (salary_payments db) (expenses db) (milk_records db) /\
    py_not (Request.session_user_id request) = true /\
    Request.method request = "POST" /\
    User.id u = next_id (map User.id (users db)) /\
    User.username u = strip (Request.form_get request "username" "") /\
    User.email u = lower (strip (Request.form_get request "email" "")) /\
    User.mobile u = strip (Request.form_get request "mobile" "") /\
    User.password_hash u =
      generate_password_hash (Request.form_get request "password" "") /\
    User.role u = (if (List.length (users db) =? 0)%nat then "admin" else "user") /\
    fst (validate_password isalpha isdigit
           (Request.form_get request "password" "")) = true /\
    (forall u', In u' (users db) ->
       User.username u' <> User.username u /\
       User.email u' <> User.email u /\
       User.mobile u' <> User.mobile u).
Proof.
  unfold reg, register.
  destruct (py_not (Request.session_user_id request)) eqn:Hs; simpl;
    [|now left].
  destruct (String.eqb_spec (Request.method request) "POST") as [Hm|Hm];
    [|now left].
  destruct (is_empty _ || is_empty _ || is_empty _ || is_empty _); [now left|].
  destruct (negb (String.eqb _ _)); [now left|].
  destruct (validate_password isalpha isdigit _) as [ok msg] eqn:Hv.
  destruct ok; simpl; [|now left].
  destruct (existsb (fun u => String.eqb (User.username u)
                      (strip (Request.form_get request "username" ""))) (users db))
    eqn:Hu; [now left|].
  destruct (existsb (fun u => String.eqb (User.email u)
                      (lower (strip (Request.form_get request "email" "")))) (users db))
    eqn:He; [now left|].
  destruct (existsb (fun u => String.eqb (User.mobile u)
                      (strip (Request.form_get request "mobile" ""))) (users db))
    eqn:Hmo; [now left|].
  right. eexists. simpl. repeat split.
  - exact Hm.
  - apply (existsb_false_all _ _ Hu) in H. now apply String.eqb_neq in H.
  - apply (existsb_false_all _ _ He) in H. now apply String.eqb_neq in H.
  - apply (existsb_false_all _ _ Hmo) in H. now apply String.eqb_neq in H.
Qed.

Lemma next_id_fresh (ids : list Z) : ~ In (next_id ids) ids.
Proof.
  assert (H : forall i, In i ids -> i <= fold_right Z.max 0 ids).
  { induction ids as [|j ids IH]; simpl; [contradiction|].
    intros i [->|Hi]; [lia|]. specialize (IH i Hi). lia. }
  intros Hin. apply H in Hin. unfold next_id in Hin. lia.
Qed.

Lemma NoDup_snoc {A : Type} (l : list A) (x : A) :
  NoDup l -> ~ In x l -> NoDup (l ++ [x]).
Proof.
  intros Hnd Hx. apply NoDup_app; [exact Hnd|repeat constructor; auto|].
  intros y Hy [<-|[]]. contradiction.
Qed.

Lemma register_keeps_distinct (db : database) (request : Request.t) :
  users_distinct (users db) ->
  users_distinct (users (fst (fst (reg db request)))).
Proof.
  intros Hd.
  destruct (register_row db request) as [->|[u [-> [_ [_ [Hid [_ [_ [_ [_ [_ [_ Hf]]]]]]]]]]]];
    [exact Hd|].
  destruct Hd as [Hi [Hu [He Hm]]]. simpl. unfold users_distinct.
  rewrite !map_app. simpl.
  repeat split; apply NoDup_snoc; try assumption.
  - rewrite Hid. apply next_id_fresh.
  - intros Hin. apply in_map_iff in Hin. destruct Hin as [u' [Heq Hin]].
    destruct (Hf u' Hin) as [H1 [H2 H3]]. congruence.
  - intros Hin. apply in_map_iff in Hin. destruct Hin as [u' [Heq Hin]].
    destruct (Hf u' Hin) as [H1 [H2 H3]]. congruence.
  - intros Hin. apply in_map_iff in Hin. destruct Hin as [u' [Heq Hin]].
    destruct (Hf u' Hin) as [H1 [H2 H3]]. congruence.
Qed.

(** Registration keeps the users table free of duplicates: if ids,
    usernames, emails and mobiles are pairwise distinct before a run of
    requests to "/register", they are so after it. *)
Theorem register_all_keeps_distinct (db : database) (requests : list Request.t) :
  users_distinct (users db) ->
  users_distinct (users (reg_all db requests)).
Proof.
  intros Hd. unfold reg_all, register_all.
  revert db Hd. induction requests as [|r requests IH]; intros db Hd; simpl.
  - exact Hd.
  - apply IH. apply register_keeps_distinct. exact Hd.
Qed.

(** A request to "/register" writes nothing but, at most, one new row at
    the end of the users table: the rows already there and the other
    tables stay as they are. With a session that is logged in, or with a
    method other than POST, it writes nothing at all. *)
Theorem register_writes_one_row_at_most (db : database) (request : Request.t) :
  let db' := fst (fst (reg db request)) in
  (exists created, users db' = users db ++ created /\ (List.length created <= 1)%nat) /\
  buffaloes db' = buffaloes db /\ workers db' = workers db /\
  salary_payments db' = salary_payments db /\ expenses db' = expenses db /\
  milk_records db' = milk_records db /\
  (py_not (Request.session_user_id request) = false ->
   reg db request = (db, [], Redirect "dashboard")) /\
  (Request.method request <> "POST" -> db' = db).
Proof.
  intros db'. unfold db'. clear db'.
  destruct (register_row db request) as [Heq|[u [Heq [Hs [Hm _]]]]].
  - rewrite Heq. split; [exists []; rewrite app_nil_r; split; [reflexivity|simpl; lia]|].
    repeat split.
    intros Hpy. unfold reg, register. now rewrite Hpy.
  - rewrite Heq. simpl. split; [exists [u]; split; [reflexivity|simpl; lia]|].
    repeat split; congruence.
Qed.

End RegistrationRows.

Lemma register_all_keeps_distinct_witness :
  users_distinct (users db_empty) /\
  users_distinct
    (users (register_all (fun s => s) (fun s => s) ascii_isalpha ascii_isdigit
              (fun s => s) db_empty
              [registration_of "asha" "asha@example.org" "9000000001" "milk2025x";
               registration_of "asha" "other@example.org" "9000000003" "milk2025x";
               registration_of "bilal" "bilal@example.org" "9000000002" "ghee2025y"])).
Proof.
  assert (H : users_distinct (users db_empty)) by (repeat split; constructor).
  split; [exact H|].
  apply (register_all_keeps_distinct (fun s => s) (fun s => s) ascii_isalpha
           ascii_isdigit (fun s => s) db_empty _ H).
Defined.

(** ** The dashboard's due list and the salary report of the same month *)

Lemma active_workers_by_name_In (db : database) (w : Worker.t) :
  In w (active_workers_by_name db) <->
  In w (workers db) /\ Worker.status w = "active".
Proof.
  split.
  - intros H. apply (Permutation_in _ (active_workers_by_name_perm db)) in H.
    apply filter_In in H. now rewrite String.eqb_eq in H.
  - intros [H1 H2].
    apply (Permutation_in _ (Permutation_sym (active_workers_by_name_perm db))).
    apply filter_In. now rewrite String.eqb_eq.
Qed.

Lemma salary_report_current_rows (db : database) (today : date) :
  SalaryReport.rows (salary_report db "" today) =
  map (report_row_of db (strftime_Ym today)) (active_workers_by_name db).
Proof. rewrite salary_report_rows_of, salary_report_month. reflexivity. Qed.

(** The dashboard and the salary report of the current month agree: every
    entry of the dashboard's due list is a row of the report, with the same
    expected, paid and due amounts and the status "Not Paid" or
    "Partially Paid"; and every report row with a positive due amount of a
    worker whose salary is set and not zero is an entry of the due list. *)
Theorem dashboard_due_agrees_with_report (db : database) (today : date) :
  let due_list := Dashboard.due_workers (dashboard db today) in
  let rows := SalaryReport.rows (salary_report db "" today) in
  (forall d, In d due_list ->
     exists row, In row rows /\
       ReportRow.worker row = DueRow.worker d /\
       ReportRow.expected row = DueRow.expected d /\
       ReportRow.paid row = DueRow.paid d /\
       ReportRow.due row = DueRow.due d /\
       (ReportRow.status row = "Not Paid" \/ ReportRow.status row = "Partially Paid")) /\
  (forall row, In row rows ->
     0 < ReportRow.due row ->
     py_not (Worker.salary_per_month (ReportRow.worker row)) = false ->
     In (DueRow.mk (ReportRow.worker row) (ReportRow.expected row)
           (ReportRow.paid row) (ReportRow.due row)) due_list).
Proof.
  intros due_list rows. unfold rows. rewrite salary_report_current_rows. split.
  - intros d Hd. apply dashboard_due_workers_In in Hd.
    destruct Hd as [w [s [Hw [Hact [Hs [Hs0 [Hlt ->]]]]]]].
    exists (report_row_of db (strftime_Ym today) w). split.
    + apply in_map. now apply active_workers_by_name_In.
    + unfold report_row_of. rewrite Hs. simpl.
      repeat split; try lia.
      destruct (Z.eqb_spec s 0) as [|_]; [contradiction|].
      destruct (Z.eqb_spec (month_paid db (strftime_Ym today) (Worker.id w)) 0);
        [now left|right].
      destruct (Z.ltb_spec (month_paid db (strftime_Ym today) (Worker.id w)) s);
        [reflexivity|lia].
  - intros row Hin Hdue Hpy. apply in_map_iff in Hin.
    destruct Hin as [w [<- Hw]]. apply active_workers_by_name_In in Hw.
    destruct Hw as [Hw Hact]. simpl in *.
    apply py_not_false in Hpy. destruct Hpy as [s [Hs Hs0]].
    rewrite Hs in *. simpl in *.
    apply dashboard_due_workers_In. exists w, s.
    repeat split; try assumption; try lia.
    f_equal. lia.
Qed.

Lemma month_paid_nonneg (db : database) (month_str : string) (wid : Z) :
  Forall (fun p => 0 <= SalaryPayment.amount p) (salary_payments db) ->
  0 <= month_paid db month_str wid.
Proof.
  intros Hall. unfold month_paid, payments_of_month.
  rewrite Forall_forall in Hall.
  induction (salary_payments db) as [|p ps IH]; simpl; [lia|].
  assert (Hps : forall x, In x ps -> 0 <= SalaryPayment.amount x)
    by (intros x Hx; apply Hall; now right).
  specialize (IH Hps).
  destruct (String.eqb _ _); simpl; [|exact IH].
  destruct (Z.eqb _ _); simpl; [|exact IH].
  assert (0 <= SalaryPayment.amount p) by (apply Hall; now left). lia.
Qed.

Lemma sumZ_flat_map {A B : Type} (f : A -> list B) (g : B -> Z) (l : list A) :
  sumZ (map g (flat_map f l)) = sumZ (map (fun a => sumZ (map g (f a))) l).
Proof.
  induction l as [|a l IH]; simpl; [reflexivity|].
  rewrite map_app, sumZ_app, IH. reflexivity.
Qed.

(** When no salary payment has a negative amount, the total due of the
    salary report of the current month is the sum of the due amounts the
    dashboard lists. *)
Theorem report_total_due_is_dashboard_due (db : database) (today : date) :
  Forall (fun p => 0 <= SalaryPayment.amount p) (salary_payments db) ->
  SalaryReport.total_due (salary_report db "" today) =
  sumZ (map DueRow.due (Dashboard.due_workers (dashboard db today))).
Proof.
  intros Hall.
  destruct (salary_report_totals db "" today) as [_ [_ ->]].
  rewrite salary_report_current_rows, map_map.
  rewrite (sumZ_perm _ _ (Permutation_map _ (active_workers_by_name_perm db))).
  unfold dashboard. simpl. unfold due_workers_loop.
  rewrite sumZ_flat_map. fold (active_workers_of db).
  f_equal. apply map_ext. intros w.
  rewrite payments_by_worker_get, opt_or0_coalesce.
  pose proof (month_paid_nonneg db (strftime_Ym today) (Worker.id w) Hall) as Hp.
  unfold report_row_of. simpl.
  destruct (Worker.salary_per_month w) as [s|]; simpl.
  - destruct (Z.eqb_spec s 0) as [->|Hs]; simpl; [lia|].
    destruct (Z.ltb_spec 0 (s - month_paid db (strftime_Ym today) (Worker.id w)));
      simpl; lia.
  - lia.
Qed.

Lemma report_total_due_is_dashboard_due_witness :
  Forall (fun p => 0 <= SalaryPayment.amount p) (salary_payments db_farm) /\
  SalaryReport.total_due (salary_report db_farm "" (mkdate 2025 12 15)) =
  sumZ (map DueRow.due (Dashboard.due_workers (dashboard db_farm (mkdate 2025 12 15)))).
Proof.
  assert (H : Forall (fun p => 0 <= SalaryPayment.amount p) (salary_payments db_farm)).
  { repeat constructor; simpl; lia. }
  split; [exact H|].
  apply (report_total_due_is_dashboard_due db_farm (mkdate 2025 12 15) H).
Defined.

(** The months offered by the salary report are the months that have a
    payment, each once, in descending order. *)
Theorem salary_report_month_values (db : database) (month_arg : string) (today : date) :
  let months := SalaryReport.month_values (salary_report db month_arg today) in
  NoDup months /\
  Sorted (fun a b => String.leb b a = true) months /\
  (forall m, In m months <->
             exists p, In p (salary_payments db) /\ SalaryPayment.month p = m).
Proof.
  unfold salary_report. rewrite report_loop. simpl.
  set (ms := nodup string_dec (map SalaryPayment.month (salary_payments db))).
  pose proof (order_by_perm (fun a b => String.leb b a) ms) as Hperm.
  split; [|split].
  - apply (Permutation_NoDup (Permutation_sym Hperm)). apply NoDup_nodup.
  - apply order_by_sorted. intros a b. apply String.leb_total.
  - intros m. split.
    + intros Hin. apply (Permutation_in _ Hperm) in Hin.
      apply nodup_In, in_map_iff in Hin. destruct Hin as [p [Hm Hp]]. now exists p.
    + intros [p [Hp Hm]]. apply (Permutation_in _ (Permutation_sym Hperm)).
      apply nodup_In, in_map_iff. now exists p.
Qed.

(** ** The grouped sums of the dashboard add up to its total *)

Lemma sumZ_filter_orb {A : Type} (f : A -> Z) (p q : A -> bool) (l : list A) :
  (forall x, p x = true -> q x = false) ->
  sumZ (map f (filter (fun x => p x || q x) l)) =
  sumZ (map f (filter p l)) + sumZ (map f (filter q l)).
Proof.
  intros Hdisj. induction l as [|x l IH]; simpl; [reflexivity|].
  destruct (p x) eqn:Hp; simpl.
  - rewrite (Hdisj x Hp). simpl. lia.
  - destruct (q x); simpl; lia.
Qed.

Lemma sumZ_groups {A : Type} (key : A -> Z) (f : A -> Z) (rows : list A) (ks : list Z) :
  NoDup ks ->
  sumZ (map (fun k => sumZ (map f (filter (fun r => key r =? k) rows))) ks) =
  sumZ (map f (filter (fun r => existsb (fun k => key r =? k) ks) rows)).
Proof.
  induction 1 as [|k ks Hk Hnd IH]; simpl.
  - induction rows; simpl; auto.
  - rewrite IH. symmetry. apply sumZ_filter_orb.
    intros r Hr. apply Z.eqb_eq in Hr.
    destruct (existsb (fun k0 => key r =? k0) ks) eqn:He; [|reflexivity].
    apply existsb_exists in He. destruct He as [k' [Hin Hk']].
    apply Z.eqb_eq in Hk'. exfalso. apply Hk. congruence.
Qed.

Lemma filter_all {A : Type} (p : A -> bool) (l : list A) :
  (forall x, In x l -> p x = true) -> filter p l = l.
Proof.
  induction l as [|x l IH]; simpl; intros H; [reflexivity|].
  rewrite (H x (or_introl eq_refl)). f_equal. apply IH. intros y Hy. apply H. now right.
Qed.

(** The amounts the dashboard holds per worker for the current month (the
    values of its dict [payments_by_worker]) add up to its month salary
    total: every payment of the month is counted under exactly one
    worker id. *)
Theorem payments_by_worker_sum (db : database) (today : date) :
  sumZ (map snd (payments_by_worker db (strftime_Ym today))) =
  Dashboard.month_salary_total (dashboard db today).
Proof.
  rewrite dashboard_month_salary_total.
  unfold payments_by_worker, salary_total_of_month, group_by.
  set (rows := payments_of_month db (strftime_Ym today)).
  rewrite map_map. simpl.
  rewrite dict_facts.of_items_nodup
    by (rewrite map_map; simpl; rewrite map_id; apply NoDup_nodup).
  rewrite map_map. simpl.
  rewrite (map_ext _ (fun k => sumZ (map SalaryPayment.amount
                                       (filter (fun r => SalaryPayment.worker_id r =? k) rows))))
    by (intros k; apply sql_sum_coalesce).
  rewrite sumZ_groups by apply NoDup_nodup.
  rewrite filter_all; [reflexivity|].
  intros p Hp. apply existsb_exists. exists (SalaryPayment.worker_id p).
  split; [|apply Z.eqb_refl]. apply nodup_In, in_map. exact Hp.
Qed.

(** ** The counts of the dashboard *)

Lemma filter_length_le {A : Type} (p : A -> bool) (l : list A) :
  (List.length (filter p l) <= List.length l)%nat.
Proof. induction l as [|x l IH]; simpl; [lia|]. destruct (p x); simpl; lia. Qed.

Lemma flat_map_length_le {A B : Type} (f : A -> list B) (l : list A) :
  (forall a, (List.length (f a) <= 1)%nat) ->
  (List.length (flat_map f l) <= List.length l)%nat.
Proof.
  intros Hf. induction l as [|a l IH]; simpl; [lia|].
  rewrite length_app. specialize (Hf a). lia.
Qed.

(** The counts the dashboard shows are consistent: the due count is the
    length of the due list and never exceeds the number of active workers,
    which never exceeds the number of workers; there are at most as many
    low-milk alerts as milk records dated today; and at most as many active
    animals as animals. *)
Theorem dashboard_counts (db : database) (today : date) :
  let v := dashboard db today in
  Dashboard.due_count v = List.length (Dashboard.due_workers v) /\
  (Dashboard.due_count v <= Dashboard.active_workers v)%nat /\
  (Dashboard.active_workers v <= Dashboard.total_workers v)%nat /\
  Dashboard.low_milk_count v = List.length (Dashboard.low_milk_alerts v) /\
  (Dashboard.low_milk_count v <= List.length (todays_records db today))%nat /\
  (Dashboard.active_buffaloes v <= Dashboard.total_buffaloes v)%nat.
Proof.
  unfold dashboard. simpl.
  split; [reflexivity|]. split.
  { apply flat_map_length_le. intros w.
    destruct (py_not _); simpl; [lia|]. destruct (_ <? _); simpl; lia. }
  split; [apply filter_length_le|]. split; [reflexivity|]. split.
  { rewrite low_milk_alerts_of_spec. apply flat_map_length_le. intros r.
    destruct (low_yield_alert db today r); simpl; lia. }
  apply filter_length_le.
Qed.

(** ** Logging in, and who can delete an account *)

Section AuthFacts.

Variable strip : string -> string.
Variable check_password_hash : string -> string -> bool.




Lemma get_user_spec (db : database) (uid : Z) (u : User.t) :
  get_user db uid = Some u -> In u (users db) /\ User.id u = uid.
Proof.
  intros H. apply find_some in H. now rewrite Z.eqb_eq in H.
Qed.

(** What "/account/delete" can do: nothing to the database, or delete the
    account of the session's own user, which is not an admin, after a POST
    with that account's password; the session is then cleared. *)
Lemma account_delete_cases (db : database) (session : Session.t)
    (request : Http.request) :
  let e := account_delete check_password_hash db session request in
  Effect.db e = db \/
  exists u,
    In u (users db) /\ Session.user_id session = Some (User.id u) /\
    User.role u <> "admin" /\
    Http.method request = "POST" /\
    check_password_hash (User.password_hash u)
      (Http.form_get request "password" "") = true /\
    Effect.db e = delete_user db u /\ Effect.session e = Session.cleared.
Proof.
  unfold account_delete, login_required, Session.has_user.
  destruct (Session.user_id session) as [uid|] eqn:Hsid; simpl; [|now left].
  destruct (uid =? 0); simpl; [now left|].
  destruct (get_user db uid) as [u|] eqn:Hu; simpl; [|now left].
  destruct (String.eqb_spec (User.role u) "admin") as [Hr|Hr]; simpl; [now left|].
  destruct (String.eqb_spec (Http.method request) "POST") as [Hm|Hm]; simpl;
    [|now left].
  destruct (check_password_hash (User.password_hash u) _) eqn:Hc; simpl; [|now left].
  right. exists u. apply get_user_spec in Hu. destruct Hu as [Hin <-].
  repeat split; assumption.
Qed.

End AuthFacts.

(** What the admin's delete route can do: nothing to the database, or
    delete the account with the given id, which is not an admin, for a
    session of role "admin". *)
Lemma admin_user_delete_cases (uid : Z) (db : database) (session : Session.t)
    (request : Http.request) :
  let e := admin_user_delete uid db session request in
  Effect.db e = db \/
  exists u,
    In u (users db) /\ User.id u = uid /\ User.role u <> "admin" /\
    Session.has_user session = true /\ Session.role session = Some "admin" /\
    Effect.db e = delete_user db u.
Proof.
  unfold admin_user_delete, admin_required.
  destruct (Session.has_user session) eqn:Hs; simpl; [|now left].
  unfold Session.role_is.
  destruct (Session.role session) as [r|] eqn:Hrole; simpl; [|now left].
  destruct (String.eqb_spec r "admin") as [->|Hr]; simpl; [|now left].
  destruct (get_user db uid) as [u|] eqn:Hu; simpl; [|now left].
  destruct (String.eqb_spec (User.role u) "admin") as [Hra|Hra]; simpl; [now left|].
  right. exists u. apply get_user_spec in Hu. destruct Hu as [Hin Hid].
  repeat split; assumption.
Qed.

Lemma NoDup_map_inj {A B : Type} (f : A -> B) (l : list A) (a b : A) :
  NoDup (map f l) -> In a l -> In b l -> f a = f b -> a = b.
Proof.
  induction l as [|x l IH]; simpl; intros Hnd Ha Hb Hf; [contradiction|].
  inversion Hnd as [|? ? Hx Hnd']; subst.
  destruct Ha as [->|Ha], Hb as [->|Hb].
  - reflexivity.
  - exfalso. apply Hx. rewrite Hf. now apply in_map.
  - exfalso. apply Hx. rewrite <- Hf. now apply in_map.
  - now apply IH.
Qed.

(** Selecting rows keeps their keys distinct. *)
Lemma filter_keeps_keys_distinct {A : Type} (key : A -> Z) (keep : A -> bool)
    (rows : list A) (Hkeys : NoDup (map key rows)) :
  NoDup (map key (filter keep rows)).
Proof.
  induction rows as [|row rows IH]; simpl; [constructor|].
  simpl in Hkeys. apply NoDup_cons_iff in Hkeys. destruct Hkeys as [Hrow Hrows].
  destruct (keep row); simpl; [|exact (IH Hrows)].
  apply NoDup_cons; [|exact (IH Hrows)].
  rewrite in_map_iff. intros (other & Hkey & Hin).
  apply filter_In in Hin. apply Hrow. rewrite <- Hkey. apply in_map. tauto.
Qed.

Lemma filter_comm {A : Type} (p q : A -> bool) (l : list A) :
  filter p (filter q l) = filter q (filter p l).
Proof.
  induction l as [|x l IH]; simpl; [reflexivity|].
  destruct (p x) eqn:Hp, (q x) eqn:Hq; simpl; rewrite ?Hp, ?Hq, IH; reflexivity.
Qed.

(** Deleting an account that is not an admin's leaves the admin accounts
    as they are, ids being distinct. *)
Lemma delete_user_keeps_admins (db : database) (u : User.t) :
  NoDup (map User.id (users db)) -> In u (users db) -> User.role u <> "admin" ->
  admins (users (delete_user db u)) = admins (users db).
Proof.
  intros Hnd Hin Hr. unfold delete_user, admins. simpl.
  rewrite filter_comm. apply filter_all.
  intros a Ha. apply filter_In in Ha. destruct Ha as [Ha Hadm].
  apply String.eqb_eq in Hadm. apply negb_true_iff, Z.eqb_neq.
  intros Hid. apply Hr.
  now rewrite <- (NoDup_map_inj User.id (users db) a u Hnd Ha Hin Hid).
Qed.

Lemma delete_user_keeps_ids (db : database) (u : User.t) :
  NoDup (map User.id (users db)) -> NoDup (map User.id (users (delete_user db u))).
Proof. intros Hnd. unfold delete_user. simpl. now apply filter_keeps_keys_distinct. Qed.

(** ** The admin account over the life of the users table *)

Section AccountsFacts.

Variable strip : string -> string.
Variable lower : string -> string.
Variable isalpha isdigit : ascii -> bool.
Variable generate_password_hash : string -> string.
Variable check_password_hash : string -> string -> bool.

Let srv := serve strip lower isalpha isdigit generate_password_hash check_password_hash.
Let srv_all :=
  serve_all strip lower isalpha isdigit generate_password_hash check_password_hash.

(** What one request does to the users table: nothing, or it appends a
    row with a fresh id (an admin in an empty table, a user otherwise), or
    it deletes the rows with the id of a row that is not an admin's. *)
Lemma serve_cases (db : database) (q : account_request) :
  users (srv db q) = users db \/
  (exists u, users (srv db q) = users db ++ [u] /\
             ~ In (User.id u) (map User.id (users db)) /\
             User.role u = (if (List.length (users db) =? 0)%nat then "admin" else "user")) \/
  (exists u, In u (users db) /\ User.role u <> "admin" /\
             srv db q = delete_user db u).
Proof.
  destruct q as [request|session request|uid session request]; simpl.
  - destruct (register_row strip lower isalpha isdigit generate_password_hash db request)
      as [->|[u [-> [_ [_ [Hid [_ [_ [_ [_ [Hrole _]]]]]]]]]]]; [now left|].
    right; left. exists u. simpl. split; [reflexivity|]. split; [|exact Hrole].
    rewrite Hid. apply next_id_fresh.
  - destruct (account_delete_cases check_password_hash db session request)
      as [->|[u [Hin [_ [Hr [_ [_ [Hdb _]]]]]]]]; [now left|].
    right; right. exists u. auto.
  - destruct (admin_user_delete_cases uid db session request)
      as [->|[u [Hin [_ [Hr [_ [_ Hdb]]]]]]]; [now left|].
    right; right. exists u. auto.
Qed.

Lemma serve_keeps_ids (db : database) (q : account_request) :
  NoDup (map User.id (users db)) -> NoDup (map User.id (users (srv db q))).
Proof.
  intros Hnd.
  destruct (serve_cases db q) as [->|[[u [-> [Hid _]]]|[u [_ [_ ->]]]]].
  - exact Hnd.
  - rewrite map_app. simpl. now apply NoDup_snoc.
  - now apply delete_user_keeps_ids.
Qed.

Lemma admins_app (us vs : list User.t) : admins (us ++ vs) = admins us ++ admins vs.
Proof. unfold admins. apply filter_app. Qed.

Lemma serve_keeps_admins (db : database) (q : account_request) :
  NoDup (map User.id (users db)) -> admins (users db) <> [] ->
  admins (users (srv db q)) = admins (users db).
Proof.
  intros Hnd Hadm.
  destruct (serve_cases db q) as [->|[[u [-> [_ Hrole]]]|[u [Hin [Hr ->]]]]].
  - reflexivity.
  - destruct (users db) as [|u0 us] eqn:Hus; [now elim Hadm|].
    simpl in Hrole. rewrite admins_app. unfold admins at 2. simpl.
    rewrite Hrole. simpl. now rewrite app_nil_r.
  - now apply delete_user_keeps_admins.
Qed.

(** Once the users table has an admin, the admin accounts stay exactly as
    they are through any sequence of registrations, own-account deletions
    and deletions by the admin: none is removed and none is added. (The
    ids of the table are distinct, as its primary key.) *)
Theorem admins_never_change (db : database) (qs : list account_request) :
  NoDup (map User.id (users db)) -> admins (users db) <> [] ->
  admins (users (srv_all db qs)) = admins (users db).
Proof.
  unfold srv_all, serve_all. fold srv.
  revert db. induction qs as [|q qs IH]; intros db Hnd Hadm; simpl; [reflexivity|].
  rewrite IH.
  - now apply serve_keeps_admins.
  - now apply serve_keeps_ids.
  - now rewrite serve_keeps_admins.
Qed.

Lemma Forall_filter {A : Type} (P : A -> Prop) (p : A -> bool) (l : list A) :
  Forall P l -> Forall P (filter p l).
Proof.
  induction 1 as [|x l Hx Hl IH]; simpl; [constructor|].
  destruct (p x); [constructor|]; assumption.
Qed.

Lemma serve_keeps_admin_first (db : database) (q : account_request) :
  NoDup (map User.id (users db)) -> admin_first (users db) ->
  admin_first (users (srv db q)).
Proof.
  intros Hnd Hfirst.
  destruct (serve_cases db q) as [->|[[u [-> [_ Hrole]]]|[u [Hin [Hr ->]]]]].
  - exact Hfirst.
  - destruct (users db) as [|a rest]; simpl in *.
    + split; [exact Hrole|constructor].
    + destruct Hfirst as [Ha Hrest]. split; [exact Ha|].
      apply Forall_app. split; [exact Hrest|]. now repeat constructor.
  - unfold delete_user. simpl.
    destruct (users db) as [|a rest] eqn:Hus; simpl in *; [contradiction|].
    destruct Hfirst as [Ha Hrest].
    destruct Hin as [->|Hin]; [contradiction|].
    destruct (Z.eqb_spec (User.id a) (User.id u)) as [Hid|Hid]; simpl.
    + exfalso. inversion Hnd as [|? ? Hx _]; subst. apply Hx.
      rewrite Hid. now apply in_map.
    + split; [exact Ha|]. now apply Forall_filter.
Qed.

(** Starting from an empty users table, after any sequence of
    registrations and account deletions the table is empty, or its first
    row is the admin (the account registered first) and every other row is
    a user; the ids stay distinct. *)
Theorem first_account_stays_the_only_admin (qs : list account_request) :
  admin_first (users (srv_all db_empty qs)) /\
  NoDup (map User.id (users (srv_all db_empty qs))).
Proof.
  unfold srv_all, serve_all. fold srv.
  assert (H : forall db, NoDup (map User.id (users db)) -> admin_first (users db) ->
                         admin_first (users (fold_left srv qs db)) /\
                         NoDup (map User.id (users (fold_left srv qs db)))).
  { induction qs as [|q qs IH]; intros db Hnd Hfirst; simpl; [now split|].
    apply IH; [now apply serve_keeps_ids|now apply serve_keeps_admin_first]. }
  apply H; simpl; [constructor|exact I].
Qed.

End AccountsFacts.

Lemma admins_never_change_witness :
  NoDup (map User.id (users db_two_accounts)) /\
  admins (users db_two_accounts) <> [] /\
  admins
    (users
       (serve_all (fun s => s) (fun s => s) ascii_isalpha ascii_isdigit (fun s => s)
          String.eqb db_two_accounts
          [ToAdminUserDelete 1 (Session.mk (Some 1) (Some "asha") (Some "admin"))
             (Http.mk "POST" [] []);
           ToRegister (registration_of "chitra" "chitra@example.org" "9000000003"
                         "curd2025z");
           ToAccountDelete (Session.mk (Some 2) (Some "bilal") (Some "user"))
             (Http.mk "POST" [("password", "ghee2025y")] [])]))
  = admins (users db_two_accounts).
Proof.
  assert (H1 : NoDup (map User.id (users db_two_accounts))).
  { simpl. repeat constructor; simpl; intuition discriminate. }
  assert (H2 : admins (users db_two_accounts) <> []) by discriminate.
  split; [exact H1|]. split; [exact H2|].
  apply (admins_never_change (fun s => s) (fun s => s) ascii_isalpha ascii_isdigit
           (fun s => s) String.eqb db_two_accounts _ H1 H2).
Defined.

(** The sequence of the example: the admin's own row cannot be deleted,
    chitra registers as a user, bilal deletes bilal's own account. *)
Example serve_all_example :
  map (fun u => (User.id u, User.username u, User.role u))
    (users
       (serve_all (fun s => s) (fun s => s) ascii_isalpha ascii_isdigit (fun s => s)
          String.eqb db_two_accounts
          [ToAdminUserDelete 1 (Session.mk (Some 1) (Some "asha") (Some "admin"))
             (Http.mk "POST" [] []);
           ToRegister (registration_of "chitra" "chitra@example.org" "9000000003"
                         "curd2025z");
           ToAccountDelete (Session.mk (Some 2) (Some "bilal") (Some "user"))
             (Http.mk "POST" [("password", "ghee2025y")] [])]))
  = [(1, "asha", "admin"); (3, "chitra", "user")].
Proof. vm_compute. reflexivity. Qed.

(** ** Password reset by OTP *)

Lemma length_string_of_list_ascii (l : list ascii) :
  String.length (string_of_list_ascii l) = List.length l.
Proof. induction l as [|c l IH]; simpl; [reflexivity|now rewrite IH]. Qed.

Lemma generate_otp_code_length (draw : nat -> nat) (length : nat) :
  String.length (generate_otp_code draw length) = length.
Proof.
  unfold generate_otp_code.
  now rewrite length_string_of_list_ascii, length_map, length_seq.
Qed.

(** An OTP has the length asked for and consists of decimal digits only. *)
Theorem generate_otp_code_digits (draw : nat -> nat) (length : nat) :
  String.length (generate_otp_code draw length) = length /\
  Forall is_decimal_digit (list_ascii_of_string (generate_otp_code draw length)).
Proof.
  split; [apply generate_otp_code_length|]. unfold generate_otp_code.
  - rewrite list_ascii_of_string_of_list_ascii. apply Forall_forall.
    intros c Hc. apply in_map_iff in Hc. destruct Hc as [i [<- _]].
    unfold is_decimal_digit. apply nth_In.
    change (List.length (list_ascii_of_string "0123456789")) with 10%nat.
    apply Nat.mod_upper_bound. discriminate.
Qed.

Lemma generate_otp_code_not_empty (draw : nat -> nat) :
  String.eqb (generate_otp_code draw 6) "" = false.
Proof.
  apply String.eqb_neq. intros H.
  pose proof (generate_otp_code_length draw 6) as Hlen.
  rewrite H in Hlen. discriminate.
Qed.

(** After the row of an account found by its mobile is changed, without
    changing the mobile, a search by that mobile finds the changed row. *)
Lemma account_by_mobile_update (accounts : list Account.t) (mobile : string)
    (a changed : Account.t) :
  account_by_mobile accounts mobile = Some a ->
  User.mobile (Account.user changed) = mobile ->
  account_by_mobile (update_account accounts a changed) mobile = Some changed.
Proof.
  unfold account_by_mobile, update_account. intros Hfind Hmob.
  induction accounts as [|x accounts IH]; simpl in *; [discriminate|].
  destruct (User.id (Account.user x) =? User.id (Account.user a)) eqn:Hid.
  - now rewrite Hmob, String.eqb_refl.
  - destruct (String.eqb (User.mobile (Account.user x)) mobile) eqn:Hx.
    + injection Hfind as ->. now rewrite Z.eqb_refl in Hid.
    + now apply IH.
Qed.

Lemma account_by_mobile_spec (accounts : list Account.t) (mobile : string) (a : Account.t) :
  account_by_mobile accounts mobile = Some a ->
  In a accounts /\ User.mobile (Account.user a) = mobile.
Proof.
  intros H. apply find_some in H. now rewrite String.eqb_eq in H.
Qed.

Section PasswordResetFacts.

Variable strip : string -> string.
Variable isalpha isdigit : ascii -> bool.
Variable generate_password_hash : string -> string.

Let forgot := forgot_password strip.
Let reset := reset_password_otp strip isalpha isdigit generate_password_hash.

(** The two ways a request to "/reset-password-otp" can end. *)
Lemma reset_password_otp_cases (utcnow : Z) (accounts : list Account.t)
    (request : Http.request) :
  let e := reset utcnow accounts request in
  let mobile := strip (Http.form_get request "mobile" "") in
  let otp := strip (Http.form_get request "otp" "") in
  let password := Http.form_get request "password" "" in
  (ResetEffect.accounts e = accounts /\
   ResetEffect.flashed e <> [("Password updated successfully. Please login.", "success")]) \/
  exists a expires,
    Http.method request = "POST" /\
    mobile <> "" /\ otp <> "" /\
    account_by_mobile accounts mobile = Some a /\
    Account.reset_token a = Some otp /\
    Account.reset_expires_at a = Some expires /\ utcnow <= expires /\
    Http.form_get request "confirm_password" "" = password /\
    fst (validate_password isalpha isdigit password) = true /\
    ResetEffect.accounts e =
      update_account accounts a
        (Account.mk (set_password_hash (Account.user a) (generate_password_hash password))
           None None) /\
    ResetEffect.flashed e = [("Password updated successfully. Please login.", "success")] /\
    ResetEffect.response e = Redirect "login".
Proof.
  unfold reset, reset_password_otp. cbv zeta.
  destruct (String.eqb_spec (Http.method request) "POST") as [Hm|Hm];
    [|left; split; [reflexivity|discriminate]].
  unfold is_empty.
  destruct (String.eqb_spec (strip (Http.form_get request "mobile" "")) "") as [|Hmob];
    simpl; [left; split; [reflexivity|discriminate]|].
  destruct (String.eqb_spec (strip (Http.form_get request "otp" "")) "") as [|Hotp];
    simpl; [left; split; [reflexivity|discriminate]|].
  destruct (String.eqb (Http.form_get request "password" "") ""); simpl;
    [left; split; [reflexivity|discriminate]|].
  destruct (account_by_mobile accounts _) as [a|] eqn:Ha; simpl;
    [|left; split; [reflexivity|discriminate]].
  destruct (Account.reset_token a) as [tok|] eqn:Htok; simpl;
    [|left; split; [reflexivity|discriminate]].
  destruct (String.eqb tok ""); simpl; [left; split; [reflexivity|discriminate]|].
  destruct (String.eqb_spec tok (strip (Http.form_get request "otp" ""))) as [->|Hne];
    simpl; [|left; split; [reflexivity|discriminate]].
  destruct (Account.reset_expires_at a) as [expires|] eqn:Hexp; simpl;
    [|left; split; [reflexivity|discriminate]].
  destruct (Z.ltb_spec expires utcnow); simpl;
    [left; split; [reflexivity|discriminate]|].
  destruct (String.eqb_spec (Http.form_get request "password" "")
              (Http.form_get request "confirm_password" "")) as [Hc|Hc]; simpl;
    [|left; split; [reflexivity|discriminate]].
  destruct (validate_password isalpha isdigit _) as [ok msg] eqn:Hv.
  destruct ok; simpl; [|left; split; [reflexivity|simpl; congruence]].
  right. exists a, expires. repeat split; auto.
Qed.

(** A password is changed by "/reset-password-otp" only for the account
    with the mobile entered, only with the OTP stored for that account,
    not later than the OTP's expiry, and only to a password that passes the
    password rules and was entered twice; every other request leaves the
    users table as it is. *)
Theorem reset_password_needs_the_otp (utcnow : Z) (accounts : list Account.t)
    (request : Http.request) :
  let e := reset utcnow accounts request in
  ResetEffect.accounts e = accounts \/
  exists a expires,
    account_by_mobile accounts (strip (Http.form_get request "mobile" "")) = Some a /\
    Account.reset_token a = Some (strip (Http.form_get request "otp" "")) /\
    strip (Http.form_get request "otp" "") <> "" /\
    Account.reset_expires_at a = Some expires /\ utcnow <= expires /\
    Http.form_get request "confirm_password" "" = Http.form_get request "password" "" /\
    fst (validate_password isalpha isdigit (Http.form_get request "password" "")) = true /\
    ResetEffect.accounts e =
      update_account accounts a
        (Account.mk
           (set_password_hash (Account.user a)
              (generate_password_hash (Http.form_get request "password" "")))
           None None).
Proof.
  destruct (reset_password_otp_cases utcnow accounts request)
    as [[H _]|[a [expires [_ [_ [Hotp [Ha [Htok [Hexp [Hle [Hc [Hv [He _]]]]]]]]]]]]];
    [now left|].
  right. exists a, expires. repeat split; assumption.
Qed.

(** An OTP works once: after a request to "/reset-password-otp" has
    changed a password, the same request, whenever it is sent again, is
    refused as "Invalid OTP." and changes nothing. *)
Theorem reset_password_otp_once (utcnow : Z) (accounts : list Account.t)
    (request : Http.request) :
  let e := reset utcnow accounts request in
  (ResetEffect.accounts e = accounts /\
   ResetEffect.flashed e <> [("Password updated successfully. Please login.", "success")]) \/
  (ResetEffect.flashed e = [("Password updated successfully. Please login.", "success")] /\
   forall later : Z,
     ResetEffect.accounts (reset later (ResetEffect.accounts e) request) =
       ResetEffect.accounts e /\
     ResetEffect.flashed (reset later (ResetEffect.accounts e) request) =
       [("Invalid OTP.", "error")]).
Proof.
  destruct (reset_password_otp_cases utcnow accounts request)
    as [H|[a [expires [Hm [Hmob [Hotp [Ha [Htok [Hexp [Hle [Hc [Hv [He [Hfl _]]]]]]]]]]]]]];
    [now left|].
  right. split; [exact Hfl|]. intros later. cbv zeta in He. rewrite He.
  unfold reset, reset_password_otp. rewrite Hm. simpl.
  unfold is_empty.
  apply String.eqb_neq in Hmob, Hotp. rewrite Hmob, Hotp. simpl.
  destruct (String.eqb_spec (Http.form_get request "password" "") "") as [Hp|Hp].
  { exfalso. rewrite Hp in Hv. revert Hv. unfold validate_password. simpl. discriminate. }
  simpl.
  rewrite (account_by_mobile_update accounts _ a _ Ha).
  - simpl. split; reflexivity.
  - simpl. now apply account_by_mobile_spec in Ha.
Qed.

(** The round trip of a reset: after "/forgot-password" for a registered
    mobile, a request to "/reset-password-otp" with the OTP that was sent
    and a new password that passes the rules, made no later than ten
    minutes after, sets the account's password hash to the hash of the new
    password and clears the OTP; made later than that, it is refused as
    expired and changes nothing. *)
Theorem forgot_then_reset (draw : nat -> nat) (asked at_reset : Z)
    (accounts : list Account.t) (a : Account.t) (mobile password : string) :
  account_by_mobile accounts mobile = Some a ->
  mobile <> "" -> strip mobile = mobile ->
  strip (generate_otp_code draw 6) = generate_otp_code draw 6 ->
  fst (validate_password isalpha isdigit password) = true ->
  let e0 := forgot draw asked accounts (Http.mk "POST" [("mobile", mobile)] []) in
  let e1 :=
    reset at_reset (ResetEffect.accounts e0)
      (Http.mk "POST"
         [("mobile", mobile); ("otp", generate_otp_code draw 6);
          ("password", password); ("confirm_password", password)] []) in
  ResetEffect.sent e0 = Some (mobile, generate_otp_code draw 6) /\
  (at_reset <= asked + ten_minutes ->
   account_by_mobile (ResetEffect.accounts e1) mobile =
     Some (Account.mk
             (set_password_hash (Account.user a) (generate_password_hash password))
             None None) /\
   ResetEffect.flashed e1 = [("Password updated successfully. Please login.", "success")]) /\
  (asked + ten_minutes < at_reset ->
   ResetEffect.accounts e1 = ResetEffect.accounts e0 /\
   ResetEffect.flashed e1 = [("OTP expired. Please request a new one.", "error")]).
Proof.
  intros Ha Hmob Hstrip Hotp Hv e0 e1.
  pose proof (account_by_mobile_spec _ _ _ Ha) as [_ Hma].
  assert (Hp : String.eqb password "" = false).
  { apply String.eqb_neq. intros ->. revert Hv. unfold validate_password. simpl.
    discriminate. }
  assert (He0 : e0 = ResetEffect.mk
                  (update_account accounts a
                     (Account.mk (Account.user a) (Some (generate_otp_code draw 6))
                        (Some (asked + ten_minutes))))
                  [("If this mobile is registered, an OTP has been sent.", "info")]
                  (Redirect "reset_password_otp")
                  (Some (mobile, generate_otp_code draw 6))).
  { unfold e0, forgot, forgot_password, Http.form_get, Http.lookup.
    cbn -[generate_otp_code account_by_mobile]. rewrite Hstrip. unfold is_empty.
    apply String.eqb_neq in Hmob. rewrite Hmob, Ha, Hma. reflexivity. }
  assert (Hfind : account_by_mobile (ResetEffect.accounts e0) mobile =
                  Some (Account.mk (Account.user a) (Some (generate_otp_code draw 6))
                          (Some (asked + ten_minutes)))).
  { rewrite He0. cbn -[generate_otp_code]. now apply account_by_mobile_update. }
  split; [now rewrite He0|].
  unfold e1. clear e1.
  set (acc0 := ResetEffect.accounts e0) in *. clearbody acc0. clear He0 e0.
  set (otp := generate_otp_code draw 6) in *.
  assert (Hne : String.eqb otp "" = false) by apply generate_otp_code_not_empty.
  clearbody otp.
  set (request := Http.mk "POST"
         [("mobile", mobile); ("otp", otp);
          ("password", password); ("confirm_password", password)] []).
  assert (Hstart : reset at_reset acc0 request =
            if asked + ten_minutes <? at_reset
            then ResetEffect.mk acc0
                   [("OTP expired. Please request a new one.", "error")]
                   (Redirect "forgot_password") None
            else ResetEffect.mk
                   (update_account acc0
                      (Account.mk (Account.user a) (Some otp)
                         (Some (asked + ten_minutes)))
                      (Account.mk
                         (set_password_hash (Account.user a)
                            (generate_password_hash password)) None None))
                   [("Password updated successfully. Please login.", "success")]
                   (Redirect "login") None).
  { unfold reset, reset_password_otp, request, Http.form_get, Http.lookup. simpl.
    rewrite Hstrip, Hotp. unfold is_empty.
    apply String.eqb_neq in Hmob. rewrite Hmob, Hne, Hp. simpl.
    rewrite Hfind. simpl.
    rewrite Hne, !String.eqb_refl. simpl.
    destruct (asked + ten_minutes <? at_reset); [reflexivity|].
    destruct (validate_password isalpha isdigit password) as [ok msg].
    simpl in Hv. subst ok. reflexivity. }
  rewrite Hstart. split.
  - intros Hle. apply Z.ltb_ge in Hle. rewrite Hle. simpl.
    split; [|reflexivity].
    now apply account_by_mobile_update.
  - intros Hlt. apply Z.ltb_lt in Hlt. rewrite Hlt.
    split; reflexivity.
Qed.

End PasswordResetFacts.

Lemma forgot_then_reset_witness :
  account_by_mobile accounts_two "9000000002" =
    Some (Account.mk
            (User.mk 2 "bilal" "bilal@example.org" "9000000002" "ghee2025y" "user")
            None None) /\
  "9000000002"%string <> ""%string /\
  fst (validate_password ascii_isalpha ascii_isdigit "paneer2026") = true /\
  (let e0 := forgot_password (fun s => s) (fun i : nat => (3 * i + 4)%nat) 1000 accounts_two
               (Http.mk "POST" [("mobile", "9000000002")] []) in
   let e1 :=
     reset_password_otp (fun s => s) ascii_isalpha ascii_isdigit (fun s => s)
       (1000 + ten_minutes) (ResetEffect.accounts e0)
       (Http.mk "POST"
          [("mobile", "9000000002");
           ("otp", generate_otp_code (fun i : nat => (3 * i + 4)%nat) 6);
           ("password", "paneer2026"); ("confirm_password", "paneer2026")] []) in
   ResetEffect.sent e0 =
     Some ("9000000002"%string, generate_otp_code (fun i : nat => (3 * i + 4)%nat) 6) /\
   (1000 + ten_minutes <= 1000 + ten_minutes ->
    account_by_mobile (ResetEffect.accounts e1) "9000000002" =
      Some (Account.mk
              (set_password_hash
                 (Account.user
                    (Account.mk
                       (User.mk 2 "bilal" "bilal@example.org" "9000000002" "ghee2025y"
                          "user") None None))
                 "paneer2026")
              None None) /\
    ResetEffect.flashed e1 = [("Password updated successfully. Please login.", "success")]) /\
   (1000 + ten_minutes < 1000 + ten_minutes ->
    ResetEffect.accounts e1 = ResetEffect.accounts e0 /\
    ResetEffect.flashed e1 = [("OTP expired. Please request a new one.", "error")])).
Proof.
  assert (Ha : account_by_mobile accounts_two "9000000002" =
               Some (Account.mk
                       (User.mk 2 "bilal" "bilal@example.org" "9000000002"
                          "ghee2025y" "user") None None)) by reflexivity.
  assert (Hm : "9000000002"%string <> ""%string) by discriminate.
  assert (Hv : fst (validate_password ascii_isalpha ascii_isdigit "paneer2026") = true)
    by reflexivity.
  split; [exact Ha|]. split; [exact Hm|]. split; [exact Hv|].
  apply (forgot_then_reset (fun s => s) ascii_isalpha ascii_isdigit (fun s => s)
           (fun i : nat => (3 * i + 4)%nat) 1000 (1000 + ten_minutes)
           accounts_two _ "9000000002" "paneer2026" Ha Hm eq_refl eq_refl Hv).
Defined.

(** The code of the example: six draws 4, 7, 10, 13, 16, 19 give "470369". *)
Example generate_otp_code_example :
  generate_otp_code (fun i : nat => (3 * i + 4)%nat) 6 = "470369"%string.
Proof. reflexivity. Qed.

(** ** Entering and deleting payments, expenses and milk records *)

Lemma app_one_neq {A : Type} (l : list A) (x : A) : l ++ [x] <> l.
Proof.
  intros H. apply (f_equal (@List.length A)) in H.
  rewrite length_app in H. simpl in H. lia.
Qed.

Lemma next_id_not_in (ids : list Z) (i : Z) : In i ids -> i <> next_id ids.
Proof.
  intros Hin Heq. unfold next_id in Heq.
  assert (Hle : forall l x, In x l -> x <= fold_right Z.max 0 l).
  { induction l as [|y l IH]; simpl; [tauto|].
    intros x [->|Hx]; [lia|]. specialize (IH x Hx). lia. }
  specialize (Hle ids i Hin). lia.
Qed.

Lemma filter_fresh_id {A : Type} (id : A -> Z) (l : list A) (x : A) :
  id x = next_id (map id l) ->
  filter (fun y => negb (id y =? id x)) (l ++ [x]) = l.
Proof.
  intros Hid. rewrite filter_app. simpl. rewrite Z.eqb_refl. simpl.
  rewrite app_nil_r. apply filter_all. intros y Hy.
  apply negb_true_iff, Z.eqb_neq. rewrite Hid.
  apply next_id_not_in, in_map, Hy.
Qed.

Lemma find_app_none {A : Type} (f : A -> bool) (l l' : list A) :
  find f l = None -> find f (l ++ l') = find f l'.
Proof.
  induction l as [|y l IH]; simpl; [reflexivity|].
  destruct (f y); [discriminate|exact IH].
Qed.

Lemma find_fresh_id {A : Type} (id : A -> Z) (l : list A) (x : A) :
  id x = next_id (map id l) ->
  find (fun y => id y =? id x) (l ++ [x]) = Some x.
Proof.
  intros Hid. rewrite find_app_none.
  - simpl. now rewrite Z.eqb_refl.
  - destruct (find (fun y => id y =? id x) l) as [y|] eqn:Hf; [|reflexivity].
    apply find_some in Hf. destruct Hf as [Hin Heq]. apply Z.eqb_eq in Heq.
    exfalso. apply (next_id_not_in (map id l) (id y)); [now apply in_map|congruence].
Qed.

Lemma with_salary_payments_same (db : database) (ps : list SalaryPayment.t) :
  with_salary_payments (with_salary_payments db ps) (salary_payments db) = db.
Proof. now destruct db. Qed.

Lemma sumZ_filter_snoc {A : Type} (g : A -> Z) (f : A -> bool) (l : list A) (x : A) :
  sumZ (map g (filter f (l ++ [x]))) =
  sumZ (map g (filter f l)) + (if f x then g x else 0).
Proof.
  rewrite filter_app, map_app, sumZ_app. simpl.
  destruct (f x); simpl; lia.
Qed.

Lemma filter_filter {A : Type} (f g : A -> bool) (l : list A) :
  filter f (filter g l) = filter (fun x => g x && f x) l.
Proof.
  induction l as [|x l IH]; simpl; [reflexivity|].
  destruct (g x); simpl; [destruct (f x)|]; now rewrite IH.
Qed.

Lemma month_paid_filter (db : database) (m : string) (w : Z) :
  month_paid db m w =
  sumZ (map SalaryPayment.amount
          (filter (fun p => String.eqb (SalaryPayment.month p) m
                            && (SalaryPayment.worker_id p =? w))
                  (salary_payments db))).
Proof. unfold month_paid, payments_of_month. now rewrite filter_filter. Qed.

Lemma month_paid_snoc (db : database) (p : SalaryPayment.t) (m : string) (w : Z) :
  month_paid (with_salary_payments db (salary_payments db ++ [p])) m w =
  month_paid db m w +
  (if String.eqb (SalaryPayment.month p) m && (SalaryPayment.worker_id p =? w)
   then SalaryPayment.amount p else 0).
Proof.
  rewrite !month_paid_filter. simpl.
  apply (sumZ_filter_snoc SalaryPayment.amount
           (fun p => String.eqb (SalaryPayment.month p) m && (SalaryPayment.worker_id p =? w))).
Qed.

Lemma salary_total_snoc (db : database) (p : SalaryPayment.t) (m : string) :
  salary_total_of_month (with_salary_payments db (salary_payments db ++ [p])) m =
  salary_total_of_month db m +
  (if String.eqb (SalaryPayment.month p) m then SalaryPayment.amount p else 0).
Proof.
  unfold salary_total_of_month, payments_of_month. simpl.
  apply (sumZ_filter_snoc SalaryPayment.amount
           (fun p => String.eqb (SalaryPayment.month p) m)).
Qed.

(** Removing the row of a key that no other row has takes the row's value
    out of a sum over a selection. *)
Lemma sumZ_filter_remove {A : Type} (id : A -> Z) (g : A -> Z) (f : A -> bool)
    (l : list A) (x : A) :
  NoDup (map id l) -> In x l ->
  sumZ (map g (filter f (filter (fun y => negb (id y =? id x)) l))) =
  sumZ (map g (filter f l)) - (if f x then g x else 0).
Proof.
  induction l as [|y l IH]; simpl; intros Hnd Hin; [contradiction|].
  inversion Hnd as [|? ? Hy Hnd']; subst.
  destruct Hin as [->|Hin].
  - rewrite Z.eqb_refl. simpl.
    rewrite (filter_all (fun y => negb (id y =? id x)) l).
    + destruct (f x); simpl; lia.
    + intros z Hz. apply negb_true_iff, Z.eqb_neq. intros E.
      apply Hy. rewrite <- E. now apply in_map.
  - destruct (id y =? id x) eqn:E; simpl.
    + apply Z.eqb_eq in E. exfalso. apply Hy. rewrite E. now apply in_map.
    + specialize (IH Hnd' Hin). destruct (f y); simpl; lia.
Qed.

Section DataEntryFacts.

Variable int_of_str : string -> option Z.
Variable float_of_str : string -> option float.
Variable strptime_Ymd : string -> option date.

Lemma str_truthy_some (s : option string) :
  str_truthy s = true -> exists v, s = Some v /\ v <> ""%string /\ coalesce s ""%string = v.
Proof.
  destruct s as [v|]; simpl; [|discriminate].
  intros H. exists v. repeat split.
  intros ->. discriminate.
Qed.

Lemma salary_add_cases (db : database) (session : Session.t) (request : Http.request) :
  let e := salary_add int_of_str strptime_Ymd db session request in
  Effect.db e = db \/
  exists ws ms amt ds w a d,
    Session.has_user session = true /\
    Http.method request = "POST"%string /\
    (Http.lookup (Http.form request) "worker_id" = Some ws /\ ws <> ""%string) /\
    (Http.lookup (Http.form request) "month" = Some ms /\ ms <> ""%string) /\
    (Http.lookup (Http.form request) "amount" = Some amt /\ amt <> ""%string) /\
    (Http.lookup (Http.form request) "date_paid" = Some ds /\ ds <> ""%string) /\
    strptime_Ymd ds = Some d /\ int_of_str ws = Some w /\ int_of_str amt = Some a /\
    e = answer
          (with_salary_payments db
             (salary_payments db ++
              [SalaryPayment.mk (next_id (map SalaryPayment.id (salary_payments db)))
                 w ms a d]))
          session [("Salary payment recorded successfully!", "success")]
          (Redirect "salary_list").
Proof.
  unfold salary_add, login_required.
  destruct (Session.has_user session) eqn:Hu; simpl; [|now left].
  destruct (String.eqb_spec (Http.method request) "POST") as [Hm|Hm]; [|now left].
  destruct (str_truthy (Http.lookup (Http.form request) "worker_id")) eqn:H1;
    simpl; [|now left].
  destruct (str_truthy (Http.lookup (Http.form request) "month")) eqn:H2;
    simpl; [|now left].
  destruct (str_truthy (Http.lookup (Http.form request) "amount")) eqn:H3;
    simpl; [|now left].
  destruct (str_truthy (Http.lookup (Http.form request) "date_paid")) eqn:H4;
    simpl; [|now left].
  apply str_truthy_some in H1, H2, H3, H4.
  destruct H1 as [ws [E1 [N1 C1]]]. destruct H2 as [ms [E2 [N2 C2]]].
  destruct H3 as [amt [E3 [N3 C3]]]. destruct H4 as [ds [E4 [N4 C4]]].
  rewrite C1, C2, C3, C4.
  destruct (strptime_Ymd ds) as [d|] eqn:Hd; [|now left].
  destruct (int_of_str ws) as [w|] eqn:Hw; [|now left].
  destruct (int_of_str amt) as [a|] eqn:Ha; [|now left].
  right. exists ws, ms, amt, ds, w, a, d. now repeat split.
Qed.

(** Whenever "/salaries/add" writes, it appends one payment with a fresh id
    whose worker, month, amount and date are the form's fields as read by
    [int] and [strptime]; what that worker was paid for that month grows by
    the amount (of any sign), what others were paid stays, and the
    dashboard's salary total of the month grows by the amount if the
    payment's month key is the current one. *)
Theorem salary_add_pays (db : database) (session : Session.t) (request : Http.request)
    (Hwrites : Effect.db (salary_add int_of_str strptime_Ymd db session request) <> db) :
  exists p,
    salary_payments (Effect.db (salary_add int_of_str strptime_Ymd db session request)) =
      salary_payments db ++ [p] /\
    ~ In (SalaryPayment.id p) (map SalaryPayment.id (salary_payments db)) /\
    int_of_str (coalesce (Http.lookup (Http.form request) "worker_id") "") =
      Some (SalaryPayment.worker_id p) /\
    Http.lookup (Http.form request) "month" = Some (SalaryPayment.month p) /\
    int_of_str (coalesce (Http.lookup (Http.form request) "amount") "") =
      Some (SalaryPayment.amount p) /\
    strptime_Ymd (coalesce (Http.lookup (Http.form request) "date_paid") "") =
      Some (SalaryPayment.date_paid p) /\
    (forall m w,
       month_paid (Effect.db (salary_add int_of_str strptime_Ymd db session request)) m w =
       month_paid db m w +
       (if String.eqb (SalaryPayment.month p) m && (SalaryPayment.worker_id p =? w)
        then SalaryPayment.amount p else 0)) /\
    (forall today,
       Dashboard.month_salary_total
         (dashboard (Effect.db (salary_add int_of_str strptime_Ymd db session request)) today) =
       Dashboard.month_salary_total (dashboard db today) +
       (if String.eqb (SalaryPayment.month p) (strftime_Ym today)
        then SalaryPayment.amount p else 0)).
Proof.
  destruct (salary_add_cases db session request) as [Hsame|Hadd]; [contradiction|].
  destruct Hadd as (ws & ms & amt & ds & w & a & d & Hu & Hm & [E1 N1] & [E2 N2]
                    & [E3 N3] & [E4 N4] & Hd & Hw & Ha & He).
  rewrite He. clear Hwrites He.
  exists (SalaryPayment.mk (next_id (map SalaryPayment.id (salary_payments db))) w ms a d).
  rewrite E1, E2, E3, E4.
  cbn [coalesce answer Effect.db with_salary_payments salary_payments
       SalaryPayment.id SalaryPayment.worker_id SalaryPayment.month
       SalaryPayment.amount SalaryPayment.date_paid].
  repeat split; try assumption.
  - intros Hin. now apply (next_id_not_in _ _ Hin).
  - intros m w'.
    apply (month_paid_snoc db
             (SalaryPayment.mk (next_id (map SalaryPayment.id (salary_payments db)))
                w ms a d)).
  - intros today. rewrite !dashboard_month_salary_total.
    apply (salary_total_snoc db
             (SalaryPayment.mk (next_id (map SalaryPayment.id (salary_payments db)))
                w ms a d)).
Qed.

(** Deleting, as an administrator, the payment that "/salaries/add" has just
    written gives back the database as it was before the two requests. *)
Theorem salary_add_then_delete (db : database) (session admin : Session.t)
    (request request' : Http.request)
    (Hwrites : Effect.db (salary_add int_of_str strptime_Ymd db session request) <> db)
    (Huser : Session.has_user admin = true)
    (Hrole : Session.role_is admin "admin" = true) :
  Effect.db
    (salary_delete (next_id (map SalaryPayment.id (salary_payments db)))
       (Effect.db (salary_add int_of_str strptime_Ymd db session request))
       admin request') = db.
Proof.
  destruct (salary_add_cases db session request) as [Hsame|Hadd]; [contradiction|].
  destruct Hadd as (ws & ms & amt & ds & w & a & d & _ & _ & _ & _ & _ & _ & _ & _ & _ & He).
  rewrite He. clear Hwrites He.
  set (p := SalaryPayment.mk (next_id (map SalaryPayment.id (salary_payments db))) w ms a d).
  assert (Hid : SalaryPayment.id p = next_id (map SalaryPayment.id (salary_payments db)))
    by reflexivity.
  rewrite <- Hid. clearbody p.
  unfold salary_delete, admin_required. rewrite Huser, Hrole.
  cbn [negb answer Effect.db with_salary_payments salary_payments].
  rewrite (find_fresh_id SalaryPayment.id _ p Hid).
  cbn [answer Effect.db].
  rewrite (filter_fresh_id SalaryPayment.id _ p Hid).
  apply with_salary_payments_same.
Qed.

End DataEntryFacts.

Lemma salary_delete_cases (payment_id : Z) (db : database) (session : Session.t)
    (request : Http.request) :
  Effect.db (salary_delete payment_id db session request) = db \/
  (Session.has_user session = true /\ Session.role_is session "admin" = true /\
   exists p,
     In p (salary_payments db) /\ SalaryPayment.id p = payment_id /\
     salary_delete payment_id db session request =
     answer
       (with_salary_payments db
          (filter (fun q => negb (SalaryPayment.id q =? SalaryPayment.id p))
                  (salary_payments db)))
       session [("Salary payment deleted.", "success")] (Redirect "salary_list")).
Proof.
  unfold salary_delete, admin_required.
  destruct (Session.has_user session); simpl; [|now left].
  destruct (Session.role_is session "admin"); simpl; [|now left].
  destruct (find _ (salary_payments db)) as [p|] eqn:Hf; [|now left].
  right. apply find_some in Hf. destruct Hf as [Hin Hid]. apply Z.eqb_eq in Hid.
  repeat split. now exists p.
Qed.

(** "/salaries/<id>/delete" writes only for an administrator and an existing
    payment: it removes the rows of that id and no other; where ids are
    unique, what the payment's worker was paid for the payment's month
    drops by its amount, and nothing else that was paid changes. *)
Theorem salary_delete_removes (payment_id : Z) (db : database) (session : Session.t)
    (request : Http.request)
    (Hwrites : Effect.db (salary_delete payment_id db session request) <> db)
    (Hids : NoDup (map SalaryPayment.id (salary_payments db))) :
  Session.has_user session = true /\
  Session.role_is session "admin" = true /\
  exists p,
    In p (salary_payments db) /\ SalaryPayment.id p = payment_id /\
    (forall q, In q (salary_payments (Effect.db (salary_delete payment_id db session request)))
               <-> In q (salary_payments db) /\ q <> p) /\
    (forall m w,
       month_paid (Effect.db (salary_delete payment_id db session request)) m w =
       month_paid db m w -
       (if String.eqb (SalaryPayment.month p) m && (SalaryPayment.worker_id p =? w)
        then SalaryPayment.amount p else 0)).
Proof.
  destruct (salary_delete_cases payment_id db session request)
    as [Hsame|(Hu & Hr & p & Hin & Hid & He)]; [contradiction|].
  rewrite He. clear Hwrites He.
  split; [exact Hu|]. split; [exact Hr|].
  exists p. split; [exact Hin|]. split; [exact Hid|].
  cbn [answer Effect.db with_salary_payments salary_payments].
  split.
  - intros q. rewrite filter_In, negb_true_iff, Z.eqb_neq.
    split.
    + intros [Hq Hne]. split; [exact Hq|]. intros ->. now apply Hne.
    + intros [Hq Hne]. split; [exact Hq|]. intros E. apply Hne.
      apply (NoDup_map_inj SalaryPayment.id (salary_payments db)); assumption.
  - intros m w. rewrite !month_paid_filter.
    cbn [with_salary_payments salary_payments].
    apply (sumZ_filter_remove SalaryPayment.id SalaryPayment.amount
             (fun p => String.eqb (SalaryPayment.month p) m
                       && (SalaryPayment.worker_id p =? w))); assumption.
Qed.

(** Whoever is not logged in as an administrator deletes no payment, no
    expense and no milk record: a delete route that changes the database
    was called in a session that has a user whose role is "admin". *)
Theorem only_admins_delete (row_id : Z) (db : database) (session : Session.t)
    (request : Http.request)
    (Hwrites :
       Effect.db (salary_delete row_id db session request) <> db \/
       Effect.db (expense_delete row_id db session request) <> db \/
       Effect.db (milk_record_delete row_id db session request) <> db) :
  Session.has_user session = true /\ Session.role_is session "admin" = true.
Proof.
  revert Hwrites.
  unfold salary_delete, expense_delete, milk_record_delete, admin_required.
  destruct (Session.has_user session); simpl; [|tauto].
  destruct (Session.role_is session "admin"); simpl; tauto.
Qed.

(** ** The payment list *)

Lemma Sorted_map {A B : Type} (f : A -> B) (R : B -> B -> Prop) (l : list A) :
  Sorted (fun a b => R (f a) (f b)) l -> Sorted R (map f l).
Proof.
  induction 1 as [|x l Hs IH Hh]; simpl; constructor; [exact IH|].
  destruct Hh; simpl; constructor. assumption.
Qed.

Lemma payments_with_worker_In (db : database) (p : SalaryPayment.t) (w : Worker.t) :
  In (p, w) (payments_with_worker db) <->
  In p (salary_payments db) /\ In w (workers db) /\
  Worker.id w = SalaryPayment.worker_id p.
Proof.
  unfold payments_with_worker. rewrite in_flat_map. split.
  - intros (q & Hq & Hin). apply in_map_iff in Hin.
    destruct Hin as (w' & E & Hw). inversion E; subst.
    apply filter_In in Hw. destruct Hw as [Hw Hid]. apply Z.eqb_eq in Hid. tauto.
  - intros (Hp & Hw & Hid). exists p. split; [exact Hp|].
    apply in_map. apply filter_In. split; [exact Hw|]. now apply Z.eqb_eq.
Qed.

(** The payments "/salaries" lists are the stored payments of the asked
    month (all months if none is asked) whose worker row exists, the
    latest date of payment first: a payment whose worker id matches no
    worker is not listed. *)
Theorem salary_list_rows (db : database) (month : string) :
  (forall p,
     In p (salary_list db month) <->
     In p (salary_payments db) /\
     (month = ""%string \/ SalaryPayment.month p = month) /\
     exists w, In w (workers db) /\ Worker.id w = SalaryPayment.worker_id p) /\
  Sorted (fun a b => date_leb (SalaryPayment.date_paid b) (SalaryPayment.date_paid a) = true)
         (salary_list db month).
Proof.
  split.
  - intros p. unfold salary_list. rewrite in_map_iff. split.
    + intros ([q w] & E & Hin). simpl in E. subst q.
      apply (Permutation_in _ (order_by_perm _ _)) in Hin.
      destruct (String.eqb_spec month "") as [Hm|Hm]; simpl in Hin.
      * apply payments_with_worker_In in Hin. destruct Hin as (Hp & Hw & Hid).
        split; [exact Hp|]. split; [now left|]. now exists w.
      * apply filter_In in Hin. destruct Hin as [Hin Hmonth]. simpl in Hmonth.
        apply String.eqb_eq in Hmonth.
        apply payments_with_worker_In in Hin. destruct Hin as (Hp & Hw & Hid).
        split; [exact Hp|]. split; [now right|]. now exists w.
    + intros (Hp & Hmonth & w & Hw & Hid). exists (p, w). split; [reflexivity|].
      apply (Permutation_in _ (Permutation_sym (order_by_perm _ _))).
      assert (Hpw : In (p, w) (payments_with_worker db))
        by (apply payments_with_worker_In; tauto).
      destruct (String.eqb_spec month "") as [Hm|Hm]; simpl; [exact Hpw|].
      apply filter_In. split; [exact Hpw|]. simpl. apply String.eqb_eq.
      destruct Hmonth; [contradiction|assumption].
  - unfold salary_list.
    apply (Sorted_map fst
             (fun a b => date_leb (SalaryPayment.date_paid b)
                                  (SalaryPayment.date_paid a) = true)).
    apply (order_by_sorted (SalaryPayment.t * Worker.t)%type
             (fun a b : SalaryPayment.t * Worker.t =>
                date_leb (SalaryPayment.date_paid (fst b))
                         (SalaryPayment.date_paid (fst a)))).
    intros a b. apply date_leb_total.
Qed.

(** ** Entries and the figures of the dashboard *)

Lemma filter_none {A : Type} (f : A -> bool) (l : list A) :
  (forall x, In x l -> f x = false) -> filter f l = [].
Proof.
  induction l as [|x l IH]; simpl; intros H; [reflexivity|].
  rewrite (H x (or_introl eq_refl)). apply IH. intros y Hy. apply H. now right.
Qed.


Lemma expense_total_snoc (db : database) (x : Expense.t) (lo hi : date) :
  expense_total_between (with_expenses db (expenses db ++ [x])) lo hi =
  expense_total_between db lo hi +
  (if in_range lo hi (Expense.date x) then Expense.amount x else 0).
Proof.
  unfold expense_total_between. simpl.
  apply (sumZ_filter_snoc Expense.amount (fun e => in_range lo hi (Expense.date e))).
Qed.

Lemma dashboard_total_cost (db : database) (today : date) :
  Dashboard.month_total_cost (dashboard db today) =
  salary_total_of_month db (strftime_Ym today) +
  expense_total_between db (fst (expense_month_range today))
    (snd (expense_month_range today)).
Proof.
  rewrite <- dashboard_month_salary_total, <- dashboard_month_expense_total.
  unfold dashboard. simpl. now rewrite !or0_id.
Qed.



Section EntriesAndReports.

Variable int_of_str : string -> option Z.
Variable float_of_str : string -> option float.
Variable strptime_Ymd : string -> option date.

Lemma expense_add_cases (db : database) (session : Session.t) (request : Http.request) :
  Effect.db (expense_add int_of_str strptime_Ymd db session request) = db \/
  exists ds cs amt d a,
    Http.lookup (Http.form request) "date" = Some ds /\
    Http.lookup (Http.form request) "category" = Some cs /\
    Http.lookup (Http.form request) "amount" = Some amt /\
    strptime_Ymd ds = Some d /\ int_of_str amt = Some a /\
    expense_add int_of_str strptime_Ymd db session request =
    answer
      (with_expenses db
         (expenses db ++ [Expense.mk (next_id (map Expense.id (expenses db))) d cs a]))
      session [("Expense recorded successfully!", "success")] (Redirect "expense_list").
Proof.
  unfold expense_add, login_required.
  destruct (Session.has_user session) eqn:Hu; simpl; [|now left].
  destruct (String.eqb_spec (Http.method request) "POST") as [Hm|Hm]; [|now left].
  destruct (str_truthy (Http.lookup (Http.form request) "date")) eqn:H1;
    simpl; [|now left].
  destruct (str_truthy (Http.lookup (Http.form request) "category")) eqn:H2;
    simpl; [|now left].
  destruct (str_truthy (Http.lookup (Http.form request) "amount")) eqn:H3;
    simpl; [|now left].
  apply str_truthy_some in H1, H2, H3.
  destruct H1 as [ds [E1 [N1 C1]]]. destruct H2 as [cs [E2 [N2 C2]]].
  destruct H3 as [amt [E3 [N3 C3]]].
  rewrite C1, C2, C3.
  destruct (strptime_Ymd ds) as [d|] eqn:Hd; [|now left].
  destruct (int_of_str amt) as [a|] eqn:Ha; [|now left].
  right. exists ds, cs, amt, d, a. now repeat split.
Qed.

(** Whenever "/expenses/add" writes, it appends one expense with the form's
    date, category and amount; the dashboard's expense total and total
    cost of the month then grow by the amount if the expense is dated in
    the current month, and stay as they were if it is not. *)
Theorem expense_add_counts (db : database) (session : Session.t) (request : Http.request)
    (Hwrites : Effect.db (expense_add int_of_str strptime_Ymd db session request) <> db) :
  exists x,
    expenses (Effect.db (expense_add int_of_str strptime_Ymd db session request)) =
      expenses db ++ [x] /\
    strptime_Ymd (coalesce (Http.lookup (Http.form request) "date") "") =
      Some (Expense.date x) /\
    Http.lookup (Http.form request) "category" = Some (Expense.category x) /\
    int_of_str (coalesce (Http.lookup (Http.form request) "amount") "") =
      Some (Expense.amount x) /\
    forall today,
      let counted :=
        if in_range (fst (expense_month_range today)) (snd (expense_month_range today))
             (Expense.date x)
        then Expense.amount x else 0 in
      Dashboard.month_expense_total
        (dashboard (Effect.db (expense_add int_of_str strptime_Ymd db session request)) today) =
        Dashboard.month_expense_total (dashboard db today) + counted /\
      Dashboard.month_total_cost
        (dashboard (Effect.db (expense_add int_of_str strptime_Ymd db session request)) today) =
        Dashboard.month_total_cost (dashboard db today) + counted.
Proof.
  destruct (expense_add_cases db session request)
    as [Hsame|(ds & cs & amt & d & a & E1 & E2 & E3 & Hd & Ha & He)]; [contradiction|].
  rewrite He. clear Hwrites He.
  exists (Expense.mk (next_id (map Expense.id (expenses db))) d cs a).
  rewrite E1, E2, E3.
  cbn [coalesce answer Effect.db with_expenses expenses
       Expense.id Expense.date Expense.category Expense.amount].
  repeat split; try assumption.
  - rewrite !dashboard_month_expense_total.
    apply (expense_total_snoc db (Expense.mk (next_id (map Expense.id (expenses db))) d cs a)).
  - rewrite !dashboard_total_cost.
    rewrite (expense_total_snoc db
               (Expense.mk (next_id (map Expense.id (expenses db))) d cs a)).
    unfold salary_total_of_month, payments_of_month. simpl. lia.
Qed.



(** A payment entered for a worker id that no worker has is stored and
    counted: the dashboard's salary total of its month grows by its amount;
    but "/salaries" lists the same payments as before, for every month
    filter. *)
Theorem payment_of_unknown_worker (db : database) (session : Session.t)
    (request : Http.request)
    (Hwrites : Effect.db (salary_add int_of_str strptime_Ymd db session request) <> db)
    (Hunknown :
       forall w, In w (workers db) ->
         int_of_str (coalesce (Http.lookup (Http.form request) "worker_id") "") <>
         Some (Worker.id w)) :
  (forall month,
     salary_list (Effect.db (salary_add int_of_str strptime_Ymd db session request)) month =
     salary_list db month) /\
  exists a,
    int_of_str (coalesce (Http.lookup (Http.form request) "amount") "") = Some a /\
    forall today,
      Http.lookup (Http.form request) "month" = Some (strftime_Ym today) ->
      Dashboard.month_salary_total
        (dashboard (Effect.db (salary_add int_of_str strptime_Ymd db session request)) today) =
      Dashboard.month_salary_total (dashboard db today) + a.
Proof.
  destruct (salary_add_cases int_of_str strptime_Ymd db session request)
    as [Hsame|Hadd]; [contradiction|].
  destruct Hadd as (ws & ms & amt & ds & w & a & d & Hu & Hm & [E1 N1] & [E2 N2]
                    & [E3 N3] & [E4 N4] & Hd & Hw & Ha & He).
  rewrite He. clear Hwrites He. rewrite E1 in Hunknown. rewrite E2, E3.
  cbn [coalesce answer Effect.db] in *.
  split.
  - intros month. unfold salary_list. f_equal.
    assert (Hpw : payments_with_worker
                    (with_salary_payments db
                       (salary_payments db ++
                        [SalaryPayment.mk (next_id (map SalaryPayment.id (salary_payments db)))
                           w ms a d])) =
                  payments_with_worker db).
    { unfold payments_with_worker. simpl. rewrite flat_map_app. simpl.
      rewrite (filter_none (fun w0 => Worker.id w0 =? w)).
      - simpl. now rewrite app_nil_r.
      - intros x Hx. apply Z.eqb_neq. intros E.
        apply (Hunknown x Hx). congruence. }
    now rewrite Hpw.
  - exists a. split; [exact Ha|]. intros today Hmonth. inversion Hmonth; subst ms.
    rewrite !dashboard_month_salary_total.
    rewrite (salary_total_snoc db
               (SalaryPayment.mk (next_id (map SalaryPayment.id (salary_payments db)))
                  w (strftime_Ym today) a d)).
    cbn [SalaryPayment.month SalaryPayment.amount]. now rewrite String.eqb_refl.
Qed.

End EntriesAndReports.

(** ** The entries of the examples *)

Lemma salary_add_pays_witness :
  Effect.db (salary_add int_of_digits date_of_iso db_farm session_user pay_chitra)
    <> db_farm /\
  exists p,
    salary_payments
      (Effect.db (salary_add int_of_digits date_of_iso db_farm session_user pay_chitra)) =
      salary_payments db_farm ++ [p] /\
    ~ In (SalaryPayment.id p) (map SalaryPayment.id (salary_payments db_farm)) /\
    int_of_digits (coalesce (Http.lookup (Http.form pay_chitra) "worker_id") "") =
      Some (SalaryPayment.worker_id p) /\
    Http.lookup (Http.form pay_chitra) "month" = Some (SalaryPayment.month p) /\
    int_of_digits (coalesce (Http.lookup (Http.form pay_chitra) "amount") "") =
      Some (SalaryPayment.amount p) /\
    date_of_iso (coalesce (Http.lookup (Http.form pay_chitra) "date_paid") "") =
      Some (SalaryPayment.date_paid p) /\
    (forall m w,
       month_paid
         (Effect.db (salary_add int_of_digits date_of_iso db_farm session_user pay_chitra))
         m w =
       month_paid db_farm m w +
       (if String.eqb (SalaryPayment.month p) m && (SalaryPayment.worker_id p =? w)
        then SalaryPayment.amount p else 0)) /\
    (forall today,
       Dashboard.month_salary_total
         (dashboard
            (Effect.db (salary_add int_of_digits date_of_iso db_farm session_user pay_chitra))
            today) =
       Dashboard.month_salary_total (dashboard db_farm today) +
       (if String.eqb (SalaryPayment.month p) (strftime_Ym today)
        then SalaryPayment.amount p else 0)).
Proof.
  assert (H : Effect.db (salary_add int_of_digits date_of_iso db_farm session_user
                           pay_chitra) <> db_farm).
  { intros E. apply (f_equal (fun d => List.length (salary_payments d))) in E.
    vm_compute in E. discriminate. }
  split; [exact H|].
  apply (salary_add_pays int_of_digits date_of_iso db_farm session_user pay_chitra H).
Defined.

(** The payment of the example: 200 paid to worker 3 for December 2025. *)
Example salary_add_example :
  salary_payments
    (Effect.db (salary_add int_of_digits date_of_iso db_farm session_user pay_chitra)) =
  salary_payments db_farm ++ [SalaryPayment.mk 5 3 "2025-12" 200 (mkdate 2025 12 21)].
Proof. reflexivity. Qed.

Lemma salary_add_then_delete_witness :
  Effect.db (salary_add int_of_digits date_of_iso db_farm session_user pay_chitra)
    <> db_farm /\
  Session.has_user session_admin = true /\
  Session.role_is session_admin "admin" = true /\
  Effect.db
    (salary_delete (next_id (map SalaryPayment.id (salary_payments db_farm)))
       (Effect.db (salary_add int_of_digits date_of_iso db_farm session_user pay_chitra))
       session_admin (post [])) = db_farm.
Proof.
  assert (H : Effect.db (salary_add int_of_digits date_of_iso db_farm session_user
                           pay_chitra) <> db_farm).
  { intros E. apply (f_equal (fun d => List.length (salary_payments d))) in E.
    vm_compute in E. discriminate. }
  assert (Hu : Session.has_user session_admin = true) by reflexivity.
  assert (Hr : Session.role_is session_admin "admin" = true) by reflexivity.
  split; [exact H|]. split; [exact Hu|]. split; [exact Hr|].
  apply (salary_add_then_delete int_of_digits date_of_iso db_farm session_user
           session_admin pay_chitra (post []) H Hu Hr).
Defined.

Lemma salary_delete_removes_witness :
  Effect.db (salary_delete 2 db_farm session_admin (post [])) <> db_farm /\
  NoDup (map SalaryPayment.id (salary_payments db_farm)) /\
  Session.has_user session_admin = true /\
  Session.role_is session_admin "admin" = true /\
  exists p,
    In p (salary_payments db_farm) /\ SalaryPayment.id p = 2 /\
    (forall q, In q (salary_payments
                       (Effect.db (salary_delete 2 db_farm session_admin (post []))))
               <-> In q (salary_payments db_farm) /\ q <> p) /\
    (forall m w,
       month_paid (Effect.db (salary_delete 2 db_farm session_admin (post []))) m w =
       month_paid db_farm m w -
       (if String.eqb (SalaryPayment.month p) m && (SalaryPayment.worker_id p =? w)
        then SalaryPayment.amount p else 0)).
Proof.
  assert (H : Effect.db (salary_delete 2 db_farm session_admin (post [])) <> db_farm).
  { intros E. apply (f_equal (fun d => List.length (salary_payments d))) in E.
    vm_compute in E. discriminate. }
  assert (Hnd : NoDup (map SalaryPayment.id (salary_payments db_farm))).
  { simpl. repeat constructor; simpl; intuition discriminate. }
  split; [exact H|]. split; [exact Hnd|].
  apply (salary_delete_removes 2 db_farm session_admin (post []) H Hnd).
Defined.

Lemma only_admins_delete_witness :
  (Effect.db (salary_delete 2 db_farm session_admin (post [])) <> db_farm \/
   Effect.db (expense_delete 2 db_farm session_admin (post [])) <> db_farm \/
   Effect.db (milk_record_delete 2 db_farm session_admin (post [])) <> db_farm) /\
  Session.has_user session_admin = true /\
  Session.role_is session_admin "admin" = true.
Proof.
  assert (H : Effect.db (salary_delete 2 db_farm session_admin (post [])) <> db_farm \/
              Effect.db (expense_delete 2 db_farm session_admin (post [])) <> db_farm \/
              Effect.db (milk_record_delete 2 db_farm session_admin (post [])) <> db_farm).
  { left. intros E. apply (f_equal (fun d => List.length (salary_payments d))) in E.
    vm_compute in E. discriminate. }
  split; [exact H|].
  apply (only_admins_delete 2 db_farm session_admin (post []) H).
Defined.

(** A user who is not an administrator deletes nothing. *)
Example salary_delete_as_user :
  salary_delete 2 db_farm session_user (post []) =
  Effect.mk db_farm session_user [("Admin access required.", "error")]
    (Rendered (Redirect "dashboard")).
Proof. reflexivity. Qed.

Lemma expense_add_counts_witness :
  Effect.db (expense_add int_of_digits date_of_iso db_farm session_user buy_feed)
    <> db_farm /\
  exists x,
    expenses (Effect.db (expense_add int_of_digits date_of_iso db_farm session_user buy_feed)) =
      expenses db_farm ++ [x] /\
    date_of_iso (coalesce (Http.lookup (Http.form buy_feed) "date") "") =
      Some (Expense.date x) /\
    Http.lookup (Http.form buy_feed) "category" = Some (Expense.category x) /\
    int_of_digits (coalesce (Http.lookup (Http.form buy_feed) "amount") "") =
      Some (Expense.amount x) /\
    forall today,
      let counted :=
        if in_range (fst (expense_month_range today)) (snd (expense_month_range today))
             (Expense.date x)
        then Expense.amount x else 0 in
      Dashboard.month_expense_total
        (dashboard
           (Effect.db (expense_add int_of_digits date_of_iso db_farm session_user buy_feed))
           today) =
        Dashboard.month_expense_total (dashboard db_farm today) + counted /\
      Dashboard.month_total_cost
        (dashboard
           (Effect.db (expense_add int_of_digits date_of_iso db_farm session_user buy_feed))
           today) =
        Dashboard.month_total_cost (dashboard db_farm today) + counted.
Proof.
  assert (H : Effect.db (expense_add int_of_digits date_of_iso db_farm session_user
                           buy_feed) <> db_farm).
  { intros E. apply (f_equal (fun d => List.length (expenses d))) in E.
    vm_compute in E. discriminate. }
  split; [exact H|].
  apply (expense_add_counts int_of_digits date_of_iso db_farm session_user buy_feed H).
Defined.

(** The expense of the example raises the total cost of December 2025 from
    1650 to 1770. *)
Example expense_add_example :
  Dashboard.month_total_cost (dashboard db_farm (mkdate 2025 12 15)) = 1650 /\
  Dashboard.month_total_cost
    (dashboard
       (Effect.db (expense_add int_of_digits date_of_iso db_farm session_user buy_feed))
       (mkdate 2025 12 15)) = 1770.
Proof. split; reflexivity. Qed.


Lemma payment_of_unknown_worker_witness :
  Effect.db (salary_add int_of_digits date_of_iso db_farm session_user pay_nobody)
    <> db_farm /\
  (forall w, In w (workers db_farm) ->
     int_of_digits (coalesce (Http.lookup (Http.form pay_nobody) "worker_id") "") <>
     Some (Worker.id w)) /\
  (forall month,
     salary_list
       (Effect.db (salary_add int_of_digits date_of_iso db_farm session_user pay_nobody))
       month =
     salary_list db_farm month) /\
  exists a,
    int_of_digits (coalesce (Http.lookup (Http.form pay_nobody) "amount") "") = Some a /\
    forall today,
      Http.lookup (Http.form pay_nobody) "month" = Some (strftime_Ym today) ->
      Dashboard.month_salary_total
        (dashboard
           (Effect.db (salary_add int_of_digits date_of_iso db_farm session_user pay_nobody))
           today) =
      Dashboard.month_salary_total (dashboard db_farm today) + a.
Proof.
  assert (H : Effect.db (salary_add int_of_digits date_of_iso db_farm session_user
                           pay_nobody) <> db_farm).
  { intros E. apply (f_equal (fun d => List.length (salary_payments d))) in E.
    vm_compute in E. discriminate. }
  assert (Hu : forall w, In w (workers db_farm) ->
            int_of_digits (coalesce (Http.lookup (Http.form pay_nobody) "worker_id") "") <>
            Some (Worker.id w)).
  { intros w Hin. simpl in Hin.
    destruct Hin as [<-|[<-|[<-|[<-|[]]]]]; vm_compute; discriminate. }
  split; [exact H|]. split; [exact Hu|].
  apply (payment_of_unknown_worker int_of_digits date_of_iso db_farm session_user
           pay_nobody H Hu).
Defined.

(** The payment of the example is in the dashboard's total of December 2025
    and not in the list of payments. *)
Example payment_of_unknown_worker_example :
  let db := Effect.db (salary_add int_of_digits date_of_iso db_farm session_user pay_nobody) in
  Dashboard.month_salary_total (dashboard db_farm (mkdate 2025 12 15)) = 1100 /\
  Dashboard.month_salary_total (dashboard db (mkdate 2025 12 15)) = 1150 /\
  map SalaryPayment.id (salary_list db "2025-12") = [3; 2; 1].
Proof. repeat split. Qed.
